(** * blinks-core: the Action entity and the blink-list hook

    A shallow embedding of
    [packages/blinks-core/src/api/Action/Action.ts] and of
    [packages/blinks-core/src/hooks/useBlinkList.ts].

    JavaScript values are modelled by their TypeScript types: optional
    properties are [option]s, string unions that are only compared or passed
    along are [string]s, and the unchecked [as T] casts of the source are
    trusted.  Everything the two files import from elsewhere ([URL],
    [proxify], [isUrlSameOrigin], [nanoid], the network, the support
    strategies) is a parameter: a field of [Platform] when it is a pure
    function or a constant, a field of [Env] when it is an effect. *)

From Stdlib Require Import String Ascii List ZArith Lia Bool.
From Stdlib Require Import DecimalString.
Import ListNotations.
Local Open Scope string_scope.
Local Open Scope list_scope.

Set Implicit Arguments.

(** ** JavaScript string helpers *)

(** [s.startsWith(p)]. *)
Definition startsWith (s p : string) : bool := String.prefix p s.

(** A truthy string is a non-empty one. *)
Definition truthy_string (s : string) : bool :=
  match s with EmptyString => false | String _ _ => true end.

(** White space removed by [String.prototype.trim].  A string is a sequence
    of code units below 256 here, which is what a header value is; of the
    WhiteSpace and LineTerminator code points of ECMAScript those below 256
    are TAB, LF, VT, FF, CR (9 to 13), SP (32) and NBSP (160). *)
Definition is_white_space (c : ascii) : bool :=
  let n := nat_of_ascii c in
  (Nat.eqb n 32 || (Nat.leb 9 n && Nat.leb n 13) || Nat.eqb n 160)%bool.

Fixpoint trimStart (s : string) : string :=
  match s with
  | EmptyString => EmptyString
  | String c rest => if is_white_space c then trimStart rest else s
  end.

Fixpoint trimEnd (s : string) : string :=
  match s with
  | EmptyString => EmptyString
  | String c rest =>
      match trimEnd rest with
      | EmptyString => if is_white_space c then EmptyString else String c EmptyString
      | rest' => String c rest'
      end
  end.

Definition trim (s : string) : string := trimEnd (trimStart s).

(** What it means for a string to be trimmed, and for a stretch of a string
    to be white space only. *)
Fixpoint all_white_space (s : string) : bool :=
  match s with
  | EmptyString => true
  | String c rest => (is_white_space c && all_white_space rest)%bool
  end.

Definition begins_with_white_space (s : string) : bool :=
  match s with
  | EmptyString => false
  | String c _ => is_white_space c
  end.

Fixpoint ends_with_white_space (s : string) : bool :=
  match s with
  | EmptyString => false
  | String c rest =>
      match rest with
      | EmptyString => is_white_space c
      | String _ _ => ends_with_white_space rest
      end
  end.

(** [s.split(sep)] for a one-character separator. *)
Fixpoint split (sep : ascii) (s : string) : list string :=
  match s with
  | EmptyString => [EmptyString]
  | String c rest =>
      if Ascii.eqb c sep then EmptyString :: split sep rest
      else match split sep rest with
           | [] => [String c EmptyString]
           | piece :: pieces => String c piece :: pieces
           end
  end.

(** The number of occurrences of a character. *)
Fixpoint count_char (c : ascii) (s : string) : nat :=
  match s with
  | EmptyString => 0
  | String d rest =>
      if Ascii.eqb d c then S (count_char c rest) else count_char c rest
  end.

(** [`${n}`] for an integer. *)
Definition string_of_Z (z : Z) : string := NilZero.string_of_int (Z.to_int z).

(** [a ?? b]. *)
Definition nullish {A : Type} (a : option A) (b : A) : A :=
  match a with Some x => x | None => b end.

(** ** actions-spec.ts: the manifest *)

(** [ActionParameterType] and [LinkedActionType] are string unions; the code
    only tests them for emptiness and equality. *)
Definition ActionParameterType := string.
Definition LinkedActionType := string.

Record TypedActionParameter : Type := {
  param_type : option ActionParameterType;
  param_name : string;
  param_label : option string;
  param_required : option bool
}.

Record LinkedAction : Type := {
  la_type : option LinkedActionType;
  la_href : string;
  la_label : string;
  la_parameters : option (list TypedActionParameter)
}.

Inductive ActionType : Type := TypeAction | TypeCompleted.

Record ActionError : Type := { error_message : string }.

(** [links?: { actions: LinkedAction[] }]. *)
Record ActionLinks : Type := { links_actions : list LinkedAction }.

Record NextAction : Type := {
  na_type : ActionType;
  na_icon : string;
  na_title : string;
  na_description : string;
  na_label : string;
  na_disabled : option bool;
  na_links : option ActionLinks;
  na_error : option ActionError
}.

(** [{ ...data, type: 'action' }]. *)
Definition with_type_action (d : NextAction) : NextAction :=
  {| na_type := TypeAction;
     na_icon := na_icon d;
     na_title := na_title d;
     na_description := na_description d;
     na_label := na_label d;
     na_disabled := na_disabled d;
     na_links := na_links d;
     na_error := na_error d |}.

Inductive NextActionLink : Type :=
| PostNextActionLink (href : string)
| InlineNextActionLink (action : NextAction).

(** ** Action.ts: constants and local types *)

Definition MULTI_VALUE_TYPES : list ActionParameterType := ["checkbox"].

Definition EXPERIMENTAL_LIVE_DATA_DEFAULT_DELAY_MS : Z := 1000.

Record ActionMetadata : Type := {
  blockchainIds : option (list string);
  version : option string
}.

Inductive ActionChainMetadata : Type :=
| Chained (isInline : bool)
| NotChained.

(** Delays are JSON numbers; they are modelled as integers (milliseconds). *)
Record LiveData : Type := {
  ld_enabled : bool;
  ld_delayMs : option Z
}.

Record RequiredLiveData : Type := {
  rld_enabled : bool;
  rld_delayMs : Z
}.

Record ExperimentalFeatures : Type := { liveData : option LiveData }.

(** [ExtendedActionGetResponse]: the manifest and the experimental block. *)
Record ExtendedActionGetResponse : Type := {
  get_manifest : NextAction;
  dialectExperimental : option ExperimentalFeatures
}.

(** ** What a run can end in *)

Inductive Exn : Type :=
| TypeError_InvalidURL (input : string)
| Error (message : string)
| Rejection (reason : string).

Inductive Outcome (A : Type) : Type :=
| Returned (a : A)
| Threw (e : Exn).

Arguments Returned {A} a.
Arguments Threw {A} e.

(** ** The network as the code sees it *)

Record Request : Type := {
  req_url : string;
  req_method : string;
  req_body : option string;
  req_headers : list (string * string)
}.

Record Response : Type := {
  resp_ok : bool;
  resp_status : Z;
  resp_header : string -> option string;
  resp_body : string
}.

Record Proxified : Type := {
  proxy_url : string;
  proxy_headers : list (string * string)
}.

(** [getActionMetadata]. *)
Definition getActionMetadata (response : Response) : ActionMetadata :=
  {| blockchainIds :=
       option_map (fun raw => map trim (split "," raw))
                  (resp_header response "x-blockchain-ids");
     version := option_map trim (resp_header response "x-action-version") |}.

(** ** useBlinkList.ts: the registry list *)

Record BlinkListEntry : Type := {
  entry_id : string;
  entry_title : string;
  entry_description : string;
  entry_blinkUrl : string;
  entry_metadataUrl : option string;
  entry_image : string;
  entry_icon : option string
}.

Record BlinkList : Type := { entries : list BlinkListEntry }.

(** [ActionSupportability], the verdict of a support strategy. *)
Record ActionSupportability : Type := {
  sup_isSupported : bool;
  sup_message : option string
}.

(** ** The world the code runs in

    [ids_issued] counts the calls of [nanoid()], [requests] lists the calls
    of the global [fetch], oldest first, and [console] what was given to
    [console.error]. *)
Record World : Type := {
  ids_issued : nat;
  requests : list Request;
  console : list (string * option Exn)
}.

(** An asynchronous computation: it ends in a value or in a rejection
    (a [throw] inside an [async] function is a rejection), and changes the
    world on the way. *)
Definition M (A : Type) : Type := World -> Outcome A * World.

Definition ret {A : Type} (a : A) : M A := fun w => (Returned a, w).

Definition throw {A : Type} (e : Exn) : M A := fun w => (Threw e, w).

Definition bind {A B : Type} (m : M A) (k : A -> M B) : M B :=
  fun w =>
    match m w with
    | (Returned a, w') => k a w'
    | (Threw e, w') => (Threw e, w')
    end.

(** [try { m } catch (e) { handler }]. *)
Definition try_catch {A : Type} (m : M A) (handler : Exn -> M A) : M A :=
  fun w =>
    match m w with
    | (Returned a, w') => (Returned a, w')
    | (Threw e, w') => handler e w'
    end.

Definition lift {A : Type} (o : Outcome A) : M A := fun w => (o, w).

Notation "x <- m ;; k" := (bind m (fun x => k))
  (at level 61, m at next level, right associativity).
Notation "m ;;; k" := (bind m (fun _ => k))
  (at level 61, right associativity).

Definition console_error (message : string) (detail : option Exn) : M unit :=
  fun w =>
    (Returned tt,
     {| ids_issued := ids_issued w;
        requests := requests w;
        console := console w ++ [(message, detail)] |}).

(** [await response.json()] followed by a cast. *)
Definition json {A : Type} (parse : string -> option A) (response : Response)
  : M A :=
  match parse (resp_body response) with
  | Some value => ret value
  | None => throw (Rejection "SyntaxError: response body is not valid JSON")
  end.

Section Blinks.

(** Function values and payloads the two files only pass along. *)
Variables Strategy Adapter ChainData : Type.

(** ** Imports of Action.ts and useBlinkList.ts, as parameters

    [URL_origin s] is [new URL(s).origin], and [None] when the constructor
    throws its [TypeError].  The three [parse_*] are [JSON.parse] of a
    response body followed by the cast of the source, [None] when the body
    is not JSON. *)
Record Platform : Type := {
  URL_origin : string -> option string;
  isUrlSameOrigin : string -> string -> bool;
  proxify : string -> Proxified;
  proxifyImage : string -> string;
  JSON_stringify : ChainData -> string;
  parse_NextAction : string -> option NextAction;
  parse_ExtendedActionGetResponse : string -> option ExtendedActionGetResponse;
  parse_BlinkList : string -> option BlinkList;
  BASELINE_ACTION_BLOCKCHAIN_IDS : list string;
  BASELINE_ACTION_VERSION : string;
  defaultActionSupportStrategy : Strategy;
  clientKey : option string;
  BLINK_CLIENT_KEY_HEADER : string
}.

(** ** The Action and its components *)

(** The seven parameter properties of the constructor. *)
Record ActionFields : Type := {
  _url : string;
  _data : NextAction;
  _metadata : ActionMetadata;
  _supportStrategy : Strategy;
  _chainMetadata : ActionChainMetadata;
  _id : option string;
  _experimental : option ExperimentalFeatures
}.

Inductive ComponentKind : Type :=
| ButtonActionComponent
| SingleValueActionComponent
| MultiValueActionComponent
| FormActionComponent.

(** A component is the class it was built with and the arguments of its
    constructor.  [comp_parent] is the back-reference to the owning Action,
    kept as that Action's own fields. *)
Record AbstractActionComponent : Type := {
  comp_kind : ComponentKind;
  comp_parent : ActionFields;
  comp_label : string;
  comp_href : string;
  comp_type : LinkedActionType;
  comp_parameters : option (list TypedActionParameter)
}.

Record Action : Type := {
  fields :> ActionFields;
  _actions : list AbstractActionComponent
}.

(** [MULTI_VALUE_TYPES.includes(t)]. *)
Definition includes (l : list string) (t : string) : bool :=
  existsb (String.eqb t) l.

Definition componentFactory (parent : ActionFields) (label href : string)
    (type : LinkedActionType) (parameters : option (list TypedActionParameter))
  : AbstractActionComponent :=
  match parameters with
  | None | Some [] =>
      {| comp_kind := ButtonActionComponent; comp_parent := parent;
         comp_label := label; comp_href := href; comp_type := type;
         comp_parameters := None |}
  | Some (_ :: _ :: _) =>
      {| comp_kind := FormActionComponent; comp_parent := parent;
         comp_label := label; comp_href := href; comp_type := type;
         comp_parameters := parameters |}
  | Some [parameter] =>
      match param_type parameter with
      | None =>
          {| comp_kind := SingleValueActionComponent; comp_parent := parent;
             comp_label := label; comp_href := href; comp_type := type;
             comp_parameters := parameters |}
      | Some t =>
          if negb (truthy_string t) then
            {| comp_kind := SingleValueActionComponent; comp_parent := parent;
               comp_label := label; comp_href := href; comp_type := type;
               comp_parameters := parameters |}
          else if includes MULTI_VALUE_TYPES t then
            {| comp_kind := MultiValueActionComponent; comp_parent := parent;
               comp_label := label; comp_href := href; comp_type := type;
               comp_parameters := parameters |}
          else
            {| comp_kind := SingleValueActionComponent; comp_parent := parent;
               comp_label := label; comp_href := href; comp_type := type;
               comp_parameters := parameters |}
      end
  end.

Variable P : Platform.

(** The href of one linked action, given the origin of the Action's url. *)
Definition linked_href (origin : string) (action : LinkedAction) : string :=
  if startsWith (la_href action) "http" then la_href action
  else origin ++ la_href action.

(** The guard of the constructor,
    [_data.type === 'completed' || !_data.links?.actions]: an array is
    truthy whatever its length, so of the manifests of type [action] only
    those without [links] take the fallback. *)
Definition takes_fallback (data : NextAction) : bool :=
  match na_type data, na_links data with
  | TypeCompleted, _ => true
  | TypeAction, None => true
  | TypeAction, Some _ => false
  end.

(** The private constructor: the placeholder button when the guard holds,
    one component per linked action otherwise, after [new URL(_url)].  The
    default of [_chainMetadata] applies when the argument is [undefined]. *)
Definition new_Action (url : string) (data : NextAction)
    (metadata : ActionMetadata) (supportStrategy : Strategy)
    (chainMetadata : option ActionChainMetadata) (id : option string)
    (experimental : option ExperimentalFeatures) : Outcome Action :=
  let this :=
    {| _url := url; _data := data; _metadata := metadata;
       _supportStrategy := supportStrategy;
       _chainMetadata := nullish chainMetadata NotChained;
       _id := id; _experimental := experimental |} in
  match na_type data, na_links data with
  | TypeAction, Some links =>
      match URL_origin P url with
      | None => Threw (TypeError_InvalidURL url)
      | Some origin =>
          Returned
            {| fields := this;
               _actions :=
                 map (fun action =>
                        componentFactory this (la_label action)
                          (linked_href origin action)
                          (nullish (la_type action) "transaction")
                          (la_parameters action))
                     (links_actions links) |}
      end
  | _, _ =>
      Returned
        {| fields := this;
           _actions :=
             [ {| comp_kind := ButtonActionComponent; comp_parent := this;
                  comp_label := na_label data; comp_href := url;
                  comp_type := "transaction"; comp_parameters := None |} ] |}
  end.

(** What the class of a component says about its parameters. *)
Definition parameters_fit_kind (c : AbstractActionComponent) : Prop :=
  match comp_kind c with
  | ButtonActionComponent => comp_parameters c = None
  | SingleValueActionComponent =>
      exists p, comp_parameters c = Some [p] /\ param_type p <> Some "checkbox"
  | MultiValueActionComponent =>
      exists p, comp_parameters c = Some [p] /\ param_type p = Some "checkbox"
  | FormActionComponent =>
      exists ps, comp_parameters c = Some ps /\ 2 <= length ps
  end.

(** Every Action object comes out of the constructor: this is the invariant
    of the class. *)
Definition constructed (a : Action) : Prop :=
  new_Action (_url a) (_data a) (_metadata a) (_supportStrategy a)
             (Some (_chainMetadata a)) (_id a) (_experimental a)
  = Returned a.

(** ** Getters *)

(** [this._experimental?.liveData]. *)
Definition experimental_liveData (a : Action) : option LiveData :=
  match _experimental a with
  | Some experimental => liveData experimental
  | None => None
  end.

(** A number is falsy when it is zero. *)
Definition liveData_experimental (a : Action) : option RequiredLiveData :=
  match experimental_liveData a with
  | None => None
  | Some ld =>
      Some {| rld_enabled := ld_enabled ld;
              rld_delayMs :=
                match ld_delayMs ld with
                | Some delayMs =>
                    if Z.eqb delayMs 0 then EXPERIMENTAL_LIVE_DATA_DEFAULT_DELAY_MS
                    else Z.max delayMs EXPERIMENTAL_LIVE_DATA_DEFAULT_DELAY_MS
                | None => EXPERIMENTAL_LIVE_DATA_DEFAULT_DELAY_MS
                end |}
  end.

Definition id (a : Action) : option string := _id a.

Definition isChained (a : Action) : bool :=
  match _chainMetadata a with Chained _ => true | NotChained => false end.

Definition isInline (a : Action) : bool :=
  match _chainMetadata a with Chained inline => inline | NotChained => false end.

Definition type (a : Action) : ActionType := na_type (_data a).

Definition url (a : Action) : string := _url a.

Definition icon (a : Action) : string :=
  if startsWith (na_icon (_data a)) "data:" then na_icon (_data a)
  else proxifyImage P (na_icon (_data a)).

Definition title (a : Action) : string := na_title (_data a).

Definition description (a : Action) : string := na_description (_data a).

Definition disabled (a : Action) : bool := nullish (na_disabled (_data a)) false.

Definition actions (a : Action) : list AbstractActionComponent := _actions a.

Definition error (a : Action) : option string :=
  option_map error_message (na_error (_data a)).

Definition metadata (a : Action) : ActionMetadata :=
  {| blockchainIds :=
       Some (nullish (blockchainIds (_metadata a))
                     (BASELINE_ACTION_BLOCKCHAIN_IDS P));
     version :=
       Some (nullish (version (_metadata a)) (BASELINE_ACTION_VERSION P)) |}.

(** ** Effects: ids, the network, support strategies *)

(** [nanoid_at n] is what the [n]-th call of [nanoid()] returns; [network]
    answers a request given the requests made before it, with a response or
    with the rejection of [fetch]; [call_strategy] runs a support strategy. *)
Record Env : Type := {
  nanoid_at : nat -> string;
  network : list Request -> Request -> Outcome Response;
  call_strategy : Strategy -> Action -> Adapter -> M ActionSupportability
}.

Variable E : Env.

Definition nanoid : M string :=
  fun w =>
    (Returned (nanoid_at E (ids_issued w)),
     {| ids_issued := S (ids_issued w);
        requests := requests w;
        console := console w |}).

(** The global [fetch]. *)
Definition http_fetch (request : Request) : M Response :=
  fun w =>
    (network E (requests w) request,
     {| ids_issued := ids_issued w;
        requests := requests w ++ [request];
        console := console w |}).

(** [new URL(s).origin]. *)
Definition new_URL_origin (s : string) : M string :=
  match URL_origin P s with
  | Some origin => ret origin
  | None => throw (TypeError_InvalidURL s)
  end.

(** ** Methods of Action *)

Definition SUPPORTABILITY_FAILURE : ActionSupportability :=
  {| sup_isSupported := false;
     sup_message :=
       Some "Failed to check supportability, please contact your Blink client provider." |}.

Definition isSupported (a : Action) (adapter : Adapter)
  : M ActionSupportability :=
  try_catch
    (call_strategy E (_supportStrategy a) a adapter)
    (fun e =>
       console_error
         ("[@dialectlabs/blinks] Failed to check supportability for action "
            ++ url a) (Some e) ;;;
       ret SUPPORTABILITY_FAILURE).

(** The href a remote link is fetched from. *)
Definition chain_href (origin next_href : string) : string :=
  if startsWith next_href "http" then next_href
  else (origin ++ next_href)%string.

(** The POST of [chain]. *)
Definition chain_request (origin next_href : string)
    (chainData : option ChainData) : Request :=
  let proxied := proxify P (chain_href origin next_href) in
  {| req_url := proxy_url proxied;
     req_method := "POST";
     req_body := option_map (JSON_stringify P) chainData;
     req_headers :=
       [("Content-Type", "application/json");
        ("Accept", "application/json")] ++ proxy_headers proxied |}.

Definition chain (a : Action) (next : NextActionLink)
    (chainData : option ChainData) : M (option Action) :=
  id <- nanoid ;;
  match next with
  | InlineNextActionLink action =>
      chained <- lift (new_Action (url a) action (metadata a)
                         (_supportStrategy a) (Some (Chained true))
                         (Some id) None) ;;
      ret (Some chained)
  | PostNextActionLink next_href =>
      origin <- new_URL_origin (url a) ;;
      if negb (isUrlSameOrigin P origin next_href) then
        console_error
          ("Chained action is not the same origin as the current action. Original: "
             ++ url a ++ ", chained: " ++ next_href) None ;;;
        ret None
      else
        let href := chain_href origin next_href in
        let proxied := proxify P href in
        response <- http_fetch (chain_request origin next_href chainData) ;;
        if negb (resp_ok response) then
          console_error
            ("Failed to fetch chained action " ++ proxy_url proxied
               ++ ", action url: " ++ next_href) None ;;;
          ret None
        else
          data <- json (parse_NextAction P) response ;;
          chained <- lift (new_Action href data (getActionMetadata response)
                             (_supportStrategy a) (Some (Chained false))
                             (Some id) None) ;;
          ret (Some chained)
  end.

Definition Action_hydrate (url : string) (data : NextAction)
    (metadata : ActionMetadata) (supportStrategy : Strategy) : M Action :=
  id <- nanoid ;;
  lift (new_Action url data metadata supportStrategy (Some NotChained)
          (Some id) None).

(** The GET of [_fetch]. *)
Definition fetch_request (apiUrl : string) : Request :=
  let proxied := proxify P apiUrl in
  {| req_url := proxy_url proxied;
     req_method := "GET";
     req_body := None;
     req_headers := [("Accept", "application/json")] ++ proxy_headers proxied |}.

Definition Action__fetch (apiUrl : string) (supportStrategy : option Strategy)
    (chainMetadata : option ActionChainMetadata) (id : option string)
  : M Action :=
  let proxied := proxify P apiUrl in
  response <- http_fetch (fetch_request apiUrl) ;;
  if negb (resp_ok response) then
    throw (Error ("Failed to fetch action " ++ proxy_url proxied
                    ++ ", action url: " ++ apiUrl))
  else
    data <- json (parse_ExtendedActionGetResponse P) response ;;
    lift (new_Action apiUrl (with_type_action (get_manifest data))
            (getActionMetadata response)
            (nullish supportStrategy (defaultActionSupportStrategy P))
            chainMetadata id (dialectExperimental data)).

Definition Action_fetch (apiUrl : string) (supportStrategy : option Strategy)
  : M Action :=
  id <- nanoid ;;
  Action__fetch apiUrl
    (Some (nullish supportStrategy (defaultActionSupportStrategy P)))
    (Some NotChained) (Some id).

Definition refresh (a : Action) : M Action :=
  Action__fetch (url a) (Some (_supportStrategy a)) (Some (_chainMetadata a))
    (_id a).

(** [withUpdate] is synchronous: its outcome does not involve the world. *)
Definition withUpdate (a : Action) (update : option Strategy) : Outcome Action :=
  new_Action (_url a) (_data a) (_metadata a)
    (nullish update (_supportStrategy a)) (Some (_chainMetadata a)) (_id a)
    (_experimental a).

(** ** useBlinkList.ts *)

(** [...(clientKey && { [BLINK_CLIENT_KEY_HEADER]: clientKey })]. *)
Definition client_key_headers : list (string * string) :=
  match clientKey P with
  | Some key =>
      if truthy_string key then [(BLINK_CLIENT_KEY_HEADER P, key)] else []
  | None => []
  end.

Definition blink_list_request : Request :=
  {| req_url := "https://registry.dial.to/v1/private/blinks/list";
     req_method := "GET";
     req_body := None;
     req_headers := [("Accept", "application/json")] ++ client_key_headers |}.

Definition fetchBlinkList : M BlinkList :=
  try_catch
    (response <- http_fetch blink_list_request ;;
     if negb (resp_ok response) then
       console_error
         ("[@dialectlabs/blinks] Failed to fetch blink list, response status: "
            ++ string_of_Z (resp_status response)) None ;;;
       ret {| entries := [] |}
     else json (parse_BlinkList P) response)
    (fun e =>
       console_error "[@dialectlabs/blinks] Failed to fetch blink list" (Some e) ;;;
       ret {| entries := [] |}).

(** The two pieces of React state of the hook. *)
Record HookState : Type := {
  hook_loading : bool;
  hook_data : option BlinkList
}.

Definition useBlinkList_initial : HookState :=
  {| hook_loading := false; hook_data := None |}.

(** [refetch] up to the call of [fetchBlinkList]: [setLoading(true)]. *)
Definition refetch_started (st : HookState) : HookState :=
  {| hook_loading := true; hook_data := hook_data st |}.

(** The [then] and [finally] callbacks, run when the promise settles.
    [then] is skipped by a rejection; [ignore] is the flag set by the
    cancel function. *)
Definition refetch_settled (ignore : bool) (settled : Outcome BlinkList)
    (st : HookState) : HookState :=
  let after_then :=
    match settled with
    | Returned data =>
        if negb ignore
        then {| hook_loading := hook_loading st; hook_data := Some data |}
        else st
    | Threw _ => st
    end in
  if negb ignore
  then {| hook_loading := false; hook_data := hook_data after_then |}
  else after_then.

(** One complete [refetch] in world [w]. *)
Definition refetch (ignore : bool) (st : HookState) (w : World)
  : HookState * World :=
  let (settled, w') := fetchBlinkList w in
  (refetch_settled ignore settled (refetch_started st), w').

(** [data: data?.entries ?? []], the list the hook returns. *)
Definition useBlinkList_data (st : HookState) : list BlinkListEntry :=
  match hook_data st with
  | Some data => entries data
  | None => []
  end.

(** ** useAction (second hook of the hooks file)

    The three pieces of state that [useAction] owns.  The registry flag and
    the unfurled api url come from two other hooks and are arguments here. *)
Record UseActionState : Type := {
  ua_action : option Action;
  ua_isLoading : bool;
  ua_hasFetched : bool
}.

Definition useAction_initial : UseActionState :=
  {| ua_action := None; ua_isLoading := false; ua_hasFetched := false |}.

(** The callbacks given to [then], [catch] and [finally] in [fetchAction];
    [ignore] is the flag set by the cleanup function. *)
Definition fetchAction_then (ignore : bool) (action : Action)
    (st : UseActionState) : UseActionState :=
  if negb ignore
  then {| ua_action := Some action; ua_isLoading := false;
          ua_hasFetched := true |}
  else st.

Definition fetchAction_catch (ignore : bool) (e : Exn)
    (st : UseActionState) : M UseActionState :=
  if negb ignore then
    console_error "[@dialectlabs/blinks-core] Failed to fetch action" (Some e) ;;;
    ret {| ua_action := None; ua_isLoading := ua_isLoading st;
           ua_hasFetched := ua_hasFetched st |}
  else ret st.

Definition fetchAction_finally (ignore : bool) (st : UseActionState)
  : UseActionState :=
  if negb ignore
  then {| ua_action := ua_action st; ua_isLoading := false;
          ua_hasFetched := ua_hasFetched st |}
  else st.

(** One complete [fetchAction]: the guard on the api url, the two state
    updates made at once, then [Action.fetch] and the callbacks. *)
Definition fetchAction (actionApiUrl : option string)
    (supportStrategy : Strategy) (ignore : bool) (st : UseActionState)
  : M UseActionState :=
  match actionApiUrl with
  | None => ret st
  | Some apiUrl =>
      if negb (truthy_string apiUrl) then ret st
      else
        let started :=
          {| ua_action := ua_action st; ua_isLoading := true;
             ua_hasFetched := false |} in
        fun w =>
          match Action_fetch apiUrl (Some supportStrategy) w with
          | (Returned action, w') =>
              (Returned
                 (fetchAction_finally ignore
                    (fetchAction_then ignore action started)), w')
          | (Threw e, w') =>
              match fetchAction_catch ignore e started w' with
              | (Returned st', w'') =>
                  (Returned (fetchAction_finally ignore st'), w'')
              | (Threw e', w'') => (Threw e', w'')
              end
          end
  end.

(** The effect that fetches: it waits for the registry. *)
Definition fetch_effect (isRegistryLoaded : bool)
    (actionApiUrl : option string) (supportStrategy : Strategy)
    (ignore : bool) (st : UseActionState) : M UseActionState :=
  if negb isRegistryLoaded then ret st
  else fetchAction actionApiUrl supportStrategy ignore st.

(** The effect run when the support strategy changes. *)
Definition supportStrategy_effect (supportStrategy : Strategy)
    (st : UseActionState) : M UseActionState :=
  match ua_action st with
  | None => ret st
  | Some action =>
      if negb (ua_hasFetched st) then ret st
      else
        match withUpdate action (Some supportStrategy) with
        | Returned updated =>
            ret {| ua_action := Some updated;
                   ua_isLoading := ua_isLoading st;
                   ua_hasFetched := ua_hasFetched st |}
        | Threw e =>
            console_error "[@dialectlabs/blinks-core] Failed to update action"
              (Some e) ;;;
            ret st
        end
  end.

(** [isLoading: !isRegistryLoaded || isUrlLoading || isLoading]. *)
Definition useAction_isLoading (isRegistryLoaded isUrlLoading : bool)
    (st : UseActionState) : bool :=
  (negb isRegistryLoaded || isUrlLoading || ua_isLoading st)%bool.

(** ** Ids handed out so far

    [id_issued n a]: the id of [a], when it has one, was returned by one of
    the first [n] calls of [nanoid()]. *)
Definition id_issued (n : nat) (a : Action) : Prop :=
  match _id a with
  | Some i => exists k, k < n /\ i = nanoid_at E k
  | None => True
  end.

(** The generator never hands out the same id twice. *)
Definition nanoid_never_repeats : Prop :=
  forall i j, nanoid_at E i = nanoid_at E j -> i = j.

End Blinks.

(** ** RFC 3986 schemes, for the wording of the specification

    [starts_with_scheme s]: [s] begins with
    [ALPHA *( ALPHA / DIGIT / "+" / "-" / "." ) ":"]. *)
Definition is_alpha (c : ascii) : bool :=
  let n := nat_of_ascii c in
  ((Nat.leb 65 n && Nat.leb n 90) || (Nat.leb 97 n && Nat.leb n 122))%bool.

Definition is_scheme_char (c : ascii) : bool :=
  let n := nat_of_ascii c in
  (is_alpha c || (Nat.leb 48 n && Nat.leb n 57)
   || Nat.eqb n 43 || Nat.eqb n 45 || Nat.eqb n 46)%bool.

Fixpoint scheme_rest (s : string) : bool :=
  match s with
  | EmptyString => false
  | String c rest =>
      if Ascii.eqb c ":" then true
      else if is_scheme_char c then scheme_rest rest
      else false
  end.

Definition starts_with_scheme (s : string) : bool :=
  match s with
  | EmptyString => false
  | String c rest => (is_alpha c && scheme_rest rest)%bool
  end.

(** ** A concrete platform, for closed examples

    [new URL] restricted to plain [http(s)://host/path] URLs in lower case,
    without userinfo and without a default port, on which the origin is the
    scheme and the host; every other string is taken as invalid.  The
    examples below only use inputs on which this agrees with the URL
    standard. *)
Module Sample.

Fixpoint authority (s : string) : string :=
  match s with
  | EmptyString => EmptyString
  | String c rest =>
      if (Ascii.eqb c "/" || Ascii.eqb c "?" || Ascii.eqb c "#")%bool
      then EmptyString
      else String c (authority rest)
  end.

Definition after (n : nat) (s : string) : string :=
  substring n (String.length s - n) s.

Definition origin_of (s : string) : option string :=
  if startsWith s "https://" then
    match authority (after 8 s) with
    | EmptyString => None
    | host => Some ("https://" ++ host)%string
    end
  else if startsWith s "http://" then
    match authority (after 7 s) with
    | EmptyString => None
    | host => Some ("http://" ++ host)%string
    end
  else None.

Definition same_origin (origin href : string) : bool :=
  if startsWith href "http" then
    match origin_of href with
    | Some o => String.eqb o origin
    | None => false
    end
  else true.

(** The manifest of the scenario of the specification:
    one linked action [/next] with one untyped parameter [amt]. *)
Definition amt : TypedActionParameter :=
  {| param_type := None; param_name := "amt"; param_label := None;
     param_required := None |}.

Definition go_next : LinkedAction :=
  {| la_type := None; la_href := "/next"; la_label := "Go";
     la_parameters := Some [amt] |}.

Definition manifest (type : ActionType) (links : option ActionLinks)
  : NextAction :=
  {| na_type := type; na_icon := "data:,"; na_title := "Title";
     na_description := "Description"; na_label := "Label";
     na_disabled := None; na_links := links; na_error := None |}.

Definition scenario_manifest : NextAction :=
  manifest TypeAction (Some {| links_actions := [go_next] |}).

Definition completed_manifest : NextAction := manifest TypeCompleted None.

Definition empty_links_manifest : NextAction :=
  manifest TypeAction (Some {| links_actions := [] |}).

(** A link to another scheme, and a relative link whose first letters are
    [http]. *)
Definition ftp_link : LinkedAction :=
  {| la_type := None; la_href := "ftp://files.x/next"; la_label := "Files";
     la_parameters := None |}.

Definition httpdocs_link : LinkedAction :=
  {| la_type := None; la_href := "httpdocs/next"; la_label := "Docs";
     la_parameters := None |}.

Definition two_links_manifest : NextAction :=
  manifest TypeAction (Some {| links_actions := [ftp_link; httpdocs_link] |}).

Definition no_metadata : ActionMetadata :=
  {| blockchainIds := None; version := None |}.

Definition checkbox : TypedActionParameter :=
  {| param_type := Some "checkbox"; param_name := "choices";
     param_label := None; param_required := None |}.

Definition live_disabled : ExperimentalFeatures :=
  {| liveData := Some {| ld_enabled := false; ld_delayMs := None |} |}.

(** Strategies are named by numbers: strategy [0] accepts, every other one
    throws.  Bodies are looked up rather than parsed. *)
Definition platform : Platform nat string :=
  {| URL_origin := origin_of;
     isUrlSameOrigin := same_origin;
     proxify := fun u => {| proxy_url := u; proxy_headers := [] |};
     proxifyImage := fun u => u;
     JSON_stringify := fun payload => payload;
     parse_NextAction := fun body =>
       if String.eqb body "completed" then Some completed_manifest else None;
     parse_ExtendedActionGetResponse := fun body =>
       if String.eqb body "scenario" then
         Some {| get_manifest := scenario_manifest; dialectExperimental := None |}
       else if String.eqb body "completed" then
         Some {| get_manifest := completed_manifest;
                 dialectExperimental := Some live_disabled |}
       else None;
     parse_BlinkList := fun _ => None;
     BASELINE_ACTION_BLOCKCHAIN_IDS := ["solana:mainnet"];
     BASELINE_ACTION_VERSION := "2.0";
     defaultActionSupportStrategy := 0;
     clientKey := None;
     BLINK_CLIENT_KEY_HEADER := "x-blink-client-key" |}.

Definition respond (ok : bool) (status : Z) (body : string) : Response :=
  {| resp_ok := ok; resp_status := status;
     resp_header := fun _ => None; resp_body := body |}.

Fixpoint id_of_nat (n : nat) : string :=
  match n with
  | O => EmptyString
  | S m => String "i" (id_of_nat m)
  end.

(** A server at [https://x]: [/api/action] serves the scenario, [/done] a
    completed manifest, every other path answers 404; other hosts cannot be
    reached. *)
Definition env : Env nat unit :=
  {| nanoid_at := id_of_nat;
     network := fun _ request =>
       if String.eqb (req_url request) "https://x/api/action"
       then Returned (respond true 200 "scenario")
       else if String.eqb (req_url request) "https://x/done"
       then Returned (respond true 200 "completed")
       else if startsWith (req_url request) "https://x/"
       then Returned (respond false 404 "not found")
       else Threw (Rejection "TypeError: Failed to fetch");
     call_strategy := fun strategy _ _ =>
       match strategy with
       | O => ret {| sup_isSupported := true; sup_message := None |}
       | S _ => throw (Error "strategy failed")
       end |}.

Definition world0 : World :=
  {| ids_issued := 0; requests := []; console := [] |}.

Definition world1 : World :=
  {| ids_issued := 1; requests := []; console := [] |}.

(** The Action that [Action.hydrate] builds first, in [world0], from a
    completed manifest. *)
Definition hydrated (url : string) (strategy : nat)
    (experimental : option ExperimentalFeatures) : Action nat :=
  let this :=
    {| _url := url; _data := completed_manifest; _metadata := no_metadata;
       _supportStrategy := strategy; _chainMetadata := NotChained;
       _id := Some (id_of_nat 0); _experimental := experimental |} in
  {| fields := this;
     _actions :=
       [ {| comp_kind := ButtonActionComponent; comp_parent := this;
            comp_label := "Label"; comp_href := url;
            comp_type := "transaction"; comp_parameters := None |} ] |}.

Definition landing : Action nat := hydrated "https://x/api/action" 0 None.

(** The Action that [Action.fetch] builds first from [https://x/api/action]. *)
Definition scenario : Action nat :=
  let this :=
    {| _url := "https://x/api/action"; _data := scenario_manifest;
       _metadata := no_metadata; _supportStrategy := 0;
       _chainMetadata := NotChained; _id := Some (id_of_nat 0);
       _experimental := None |} in
  {| fields := this;
     _actions :=
       [ {| comp_kind := SingleValueActionComponent; comp_parent := this;
            comp_label := "Go"; comp_href := "https://x/next";
            comp_type := "transaction"; comp_parameters := Some [amt] |} ] |}.

(** The Action that [Action.fetch] builds first from [https://x/done]. *)
Definition done : Action nat :=
  let this :=
    {| _url := "https://x/done"; _data := with_type_action completed_manifest;
       _metadata := no_metadata; _supportStrategy := 0;
       _chainMetadata := NotChained; _id := Some (id_of_nat 0);
       _experimental := Some live_disabled |} in
  {| fields := this;
     _actions :=
       [ {| comp_kind := ButtonActionComponent; comp_parent := this;
            comp_label := "Label"; comp_href := "https://x/done";
            comp_type := "transaction"; comp_parameters := None |} ] |}.

Definition live (enabled : bool) (delayMs : option Z) : ExperimentalFeatures :=
  {| liveData := Some {| ld_enabled := enabled; ld_delayMs := delayMs |} |}.

End Sample.

(** More of the same server, for the examples on headers. *)
Module Fixture.

(** A response that carries the two metadata headers. *)
Definition with_headers (ids version body : string) : Response :=
  {| resp_ok := true; resp_status := 200;
     resp_header := fun name =>
       if String.eqb name "x-blockchain-ids" then Some ids
       else if String.eqb name "x-action-version" then Some version
       else None;
     resp_body := body |}.

(** The Action that [chain] builds in [world1] from the completed manifest
    that [https://x/done] answers to a POST. *)
Definition chained_done : Action nat :=
  let this :=
    {| _url := "https://x/done"; _data := Sample.completed_manifest;
       _metadata := Sample.no_metadata; _supportStrategy := 0;
       _chainMetadata := Chained false; _id := Some (Sample.id_of_nat 1);
       _experimental := None |} in
  {| fields := this;
     _actions :=
       [ {| comp_kind := ButtonActionComponent; comp_parent := this;
            comp_label := "Label"; comp_href := "https://x/done";
            comp_type := "transaction"; comp_parameters := None |} ] |}.

Definition world_after (n : nat) (sent : list Request) : World :=
  {| ids_issued := n; requests := sent; console := [] |}.

(** A registry: the platform reads the body [list] as a list of one blink,
    and the network gives every request the same answer. *)
Definition one_blink : BlinkListEntry :=
  {| entry_id := "1"; entry_title := "Blink"; entry_description := "A blink";
     entry_blinkUrl := "https://x/api/action"; entry_metadataUrl := None;
     entry_image := "https://x/image.png"; entry_icon := None |}.

Definition registry_platform (key : option string) : Platform nat string :=
  {| URL_origin := Sample.origin_of;
     isUrlSameOrigin := Sample.same_origin;
     proxify := proxify Sample.platform;
     proxifyImage := proxifyImage Sample.platform;
     JSON_stringify := JSON_stringify Sample.platform;
     parse_NextAction := parse_NextAction Sample.platform;
     parse_ExtendedActionGetResponse :=
       parse_ExtendedActionGetResponse Sample.platform;
     parse_BlinkList := fun body =>
       if String.eqb body "list" then Some {| entries := [one_blink] |}
       else None;
     BASELINE_ACTION_BLOCKCHAIN_IDS :=
       BASELINE_ACTION_BLOCKCHAIN_IDS Sample.platform;
     BASELINE_ACTION_VERSION := BASELINE_ACTION_VERSION Sample.platform;
     defaultActionSupportStrategy := 0;
     clientKey := key;
     BLINK_CLIENT_KEY_HEADER := "x-blink-client-key" |}.

Definition registry_env (answer : Outcome Response) : Env nat unit :=
  {| nanoid_at := Sample.id_of_nat;
     network := fun _ _ => answer;
     call_strategy := call_strategy Sample.env |}.

End Fixture.

(** * Properties *)

Ltac run :=
  unfold bind, try_catch, lift, ret, throw, nanoid, http_fetch,
    new_URL_origin, console_error, json; simpl.

Section Properties.

Variables Strategy Adapter ChainData : Type.
Variable P : Platform Strategy ChainData.
Variable E : Env Strategy Adapter.

(** ** The component factory *)

Lemma includes_In (l : list string) (t : string) :
  includes l t = true <-> In t l.
Proof.
  unfold includes. rewrite existsb_exists. split.
  - intros [x [Hin Heq]]. apply String.eqb_eq in Heq. now subst.
  - intros Hin. exists t. split; [assumption | apply String.eqb_refl].
Qed.

Lemma multi_value_types_checkbox (t : string) :
  In t MULTI_VALUE_TYPES <-> t = "checkbox".
Proof.
  unfold MULTI_VALUE_TYPES. simpl. split.
  - intros [H | []]. now symmetry.
  - intros ->. now left.
Qed.

(** C3.  The component factory builds a Button for an absent or empty
    parameter list, a Form for two parameters or more, a MultiValue for one
    parameter whose declared type is in the multi-value set, and a
    SingleValue for one parameter with no declared type or with a declared
    type outside that set; the multi-value set is exactly [checkbox]. *)
Theorem componentFactory_kind (parent : ActionFields Strategy)
    (label href : string) (type : LinkedActionType)
    (parameters : option (list TypedActionParameter)) :
  let kind := comp_kind (componentFactory parent label href type parameters) in
  (length (nullish parameters []) = 0 -> kind = ButtonActionComponent)
  /\ (2 <= length (nullish parameters []) -> kind = FormActionComponent)
  /\ (forall p t,
        parameters = Some [p] -> param_type p = Some t ->
        In t MULTI_VALUE_TYPES -> kind = MultiValueActionComponent)
  /\ (forall p,
        parameters = Some [p] ->
        param_type p = None
        \/ (exists t, param_type p = Some t /\ ~ In t MULTI_VALUE_TYPES) ->
        kind = SingleValueActionComponent)
  /\ (forall t, In t MULTI_VALUE_TYPES <-> t = "checkbox").
Proof.
  cbv zeta. repeat split.
  - destruct parameters as [[|p [|q ps]]|]; simpl; intros H;
      try reflexivity; discriminate.
  - destruct parameters as [[|p [|q ps]]|]; simpl; intros H;
      try reflexivity; lia.
  - intros p t -> Ht Hin. simpl. rewrite Ht.
    apply multi_value_types_checkbox in Hin. subst t. reflexivity.
  - intros p -> [Hnone | [t [Ht Hout]]]; simpl.
    + now rewrite Hnone.
    + rewrite Ht. destruct (truthy_string t); [|reflexivity].
      destruct (includes MULTI_VALUE_TYPES t) eqn:Hinc.
      * apply includes_In in Hinc. contradiction.
      * unfold negb. unfold includes in Hinc. simpl in Hinc.
        simpl. rewrite Hinc. reflexivity.
  - apply multi_value_types_checkbox.
  - apply multi_value_types_checkbox.
Qed.

(** ** The constructor *)

Lemma takes_fallback_cases (data : NextAction) :
  takes_fallback data = true
  <-> na_type data = TypeCompleted \/ na_links data = None.
Proof.
  unfold takes_fallback.
  destruct (na_type data), (na_links data); split; intros H;
    try reflexivity; try discriminate; auto;
    destruct H; discriminate.
Qed.

(** A completed manifest, or one without [links], gets the placeholder
    button, whatever the url. *)
Lemma new_Action_fallback url data metadata strategy chainMetadata id experimental :
  takes_fallback data = true ->
  exists a,
    new_Action P url data metadata strategy chainMetadata id experimental
    = Returned a
    /\ exists button,
         actions a = [button]
         /\ comp_kind button = ButtonActionComponent
         /\ comp_href button = url
         /\ comp_label button = na_label data.
Proof.
  unfold takes_fallback, new_Action. intros H.
  destruct (na_type data), (na_links data); try discriminate;
    eexists; (split; [reflexivity|]); eexists; repeat split.
Qed.

(** A manifest of type [action] with [links]: one component per linked
    action, provided the url parses. *)
Lemma new_Action_links url data metadata strategy chainMetadata id experimental
    links origin :
  na_type data = TypeAction ->
  na_links data = Some links ->
  URL_origin P url = Some origin ->
  exists a,
    new_Action P url data metadata strategy chainMetadata id experimental
    = Returned a
    /\ fields a =
         {| _url := url; _data := data; _metadata := metadata;
            _supportStrategy := strategy;
            _chainMetadata := nullish chainMetadata NotChained;
            _id := id; _experimental := experimental |}
    /\ actions a =
         map (fun action =>
                componentFactory (fields a) (la_label action)
                  (linked_href origin action)
                  (nullish (la_type action) "transaction")
                  (la_parameters action))
             (links_actions links).
Proof.
  intros Ht Hl Ho. unfold new_Action. rewrite Ht, Hl, Ho.
  eexists. split; [reflexivity|]. split; reflexivity.
Qed.

(** The constructor stores its arguments. *)
Lemma new_Action_fields url data metadata strategy chainMetadata id experimental a :
  new_Action P url data metadata strategy chainMetadata id experimental
  = Returned a ->
  fields a =
    {| _url := url; _data := data; _metadata := metadata;
       _supportStrategy := strategy;
       _chainMetadata := nullish chainMetadata NotChained;
       _id := id; _experimental := experimental |}.
Proof.
  unfold new_Action.
  destruct (na_type data), (na_links data); try destruct (URL_origin P url);
    intros H; inversion H; reflexivity.
Qed.

(** The constructor throws exactly when it has to parse a url that does not
    parse. *)
Lemma new_Action_throws url data metadata strategy chainMetadata id experimental :
  (exists e,
     new_Action P url data metadata strategy chainMetadata id experimental
     = Threw e)
  <-> takes_fallback data = false /\ URL_origin P url = None.
Proof.
  unfold new_Action, takes_fallback.
  destruct (na_type data), (na_links data); try destruct (URL_origin P url);
    split; try (intros [e He]; discriminate); try (intros [H1 H2]; discriminate).
  - intros _. split; reflexivity.
  - intros _. eexists. reflexivity.
Qed.

(** What the constructor returns satisfies the class invariant. *)
Lemma new_Action_constructed url data metadata strategy chainMetadata id
    experimental a :
  new_Action P url data metadata strategy chainMetadata id experimental
  = Returned a ->
  constructed P a.
Proof.
  intros H. pose proof (new_Action_fields _ _ _ _ _ _ _ H) as Hf.
  unfold constructed. rewrite Hf. simpl.
  unfold new_Action in *. simpl. exact H.
Qed.

(** An Action has no component exactly when its manifest is of type
    [action] and carries an empty [links.actions]. *)
Lemma constructed_no_component (a : Action Strategy) :
  constructed P a ->
  (actions a = []
   <-> na_type (_data a) = TypeAction
       /\ na_links (_data a) = Some {| links_actions := [] |}).
Proof.
  unfold constructed, new_Action, actions.
  destruct (na_type (_data a)) eqn:Ht, (na_links (_data a)) as [[l]|] eqn:Hl;
    try destruct (URL_origin P (_url a)); intros H; try discriminate;
    injection H as Ha; rewrite <- Ha; simpl;
    (split; [intros Hm | intros [H1 H2]]); try discriminate.
  - destruct l; [auto | discriminate].
  - injection H2 as ->. reflexivity.
Qed.

Lemma componentFactory_href (parent : ActionFields Strategy) label href type
    parameters :
  comp_href (componentFactory parent label href type parameters) = href.
Proof.
  unfold componentFactory.
  destruct parameters as [[|p [|q ps]]|]; try reflexivity.
  destruct (param_type p) as [t|]; [|reflexivity].
  destruct (negb (truthy_string t)); [reflexivity|].
  destruct (includes MULTI_VALUE_TYPES t); reflexivity.
Qed.

(** C8 (amended).  In an Action whose manifest is of type [action] and has
    links, the url parses, the components follow the linked actions in
    order, and the href of each is the declared href when that starts with
    [http], and the origin of the Action's url followed by the declared href
    otherwise. *)
Theorem linked_action_href (a : Action Strategy) (links : ActionLinks)
    (Hconstructed : constructed P a)
    (Htype : na_type (_data a) = TypeAction)
    (Hlinks : na_links (_data a) = Some links) :
  exists origin,
    URL_origin P (url a) = Some origin
    /\ Forall2
         (fun action component =>
            (startsWith (la_href action) "http" = true ->
             comp_href component = la_href action)
            /\ (startsWith (la_href action) "http" = false ->
                comp_href component = (origin ++ la_href action)%string))
         (links_actions links) (actions a).
Proof.
  unfold url. destruct (URL_origin P (_url a)) as [origin|] eqn:Horigin.
  - exists origin. split; [reflexivity|].
    destruct (new_Action_links (_url a) (_data a) (_metadata a)
                (_supportStrategy a) (Some (_chainMetadata a)) (_id a)
                (_experimental a) Htype Hlinks Horigin)
      as [b [Hnew [_ Hactions]]].
    unfold constructed in Hconstructed.
    assert (Hb : b = a) by congruence. subst b.
    rewrite Hactions. clear Hactions Hnew Hlinks Hconstructed.
    generalize (fields a). intros parent.
    induction (links_actions links) as [|action rest IH]; simpl.
    + constructor.
    + constructor; [|exact IH].
      rewrite componentFactory_href. unfold linked_href.
      destruct (startsWith (la_href action) "http");
        split; intros H; try discriminate; reflexivity.
  - exfalso. unfold constructed, new_Action in Hconstructed.
    rewrite Htype, Hlinks, Horigin in Hconstructed. discriminate.
Qed.

(** ** liveData_experimental *)

(** C7 (amended).  [liveData_experimental] is [null] when the liveData
    config is absent; when it is present, enabled or not, the result carries
    its [enabled] flag and the declared delay raised to 1000, an absent
    delay counting as zero. *)
Theorem liveData_experimental_spec (a : Action Strategy) :
  (experimental_liveData a = None -> liveData_experimental a = None)
  /\ (forall ld,
        experimental_liveData a = Some ld ->
        liveData_experimental a =
          Some {| rld_enabled := ld_enabled ld;
                  rld_delayMs := Z.max (nullish (ld_delayMs ld) 0%Z) 1000%Z |}).
Proof.
  unfold liveData_experimental. split.
  - intros ->. reflexivity.
  - intros ld ->. f_equal. f_equal.
    unfold EXPERIMENTAL_LIVE_DATA_DEFAULT_DELAY_MS.
    destruct (ld_delayMs ld) as [d|]; simpl; [|reflexivity].
    destruct (Z.eqb_spec d 0) as [-> | _]; reflexivity.
Qed.

Lemma liveData_experimental_null (a : Action Strategy) :
  liveData_experimental a = None <-> experimental_liveData a = None.
Proof.
  unfold liveData_experimental.
  destruct (experimental_liveData a); split; intros H;
    try reflexivity; discriminate.
Qed.

Lemma liveData_experimental_floor (a : Action Strategy) r :
  liveData_experimental a = Some r -> (1000 <= rld_delayMs r)%Z.
Proof.
  unfold liveData_experimental, EXPERIMENTAL_LIVE_DATA_DEFAULT_DELAY_MS.
  destruct (experimental_liveData a) as [ld|]; [|discriminate].
  intros Hr. injection Hr as <-. simpl.
  destruct (ld_delayMs ld) as [d|]; [|lia].
  destruct (Z.eqb d 0); lia.
Qed.

(** ** withUpdate *)

(** C6.  On an Action that came out of the constructor, [withUpdate]
    returns an Action with the same url, data, metadata, chain metadata, id
    and experimental features; the support strategy is the supplied one, and
    without one the result is the Action itself. *)
Theorem withUpdate_frame (a : Action Strategy) (update : option Strategy)
    (Hconstructed : constructed P a) :
  exists a',
    withUpdate P a update = Returned a'
    /\ _url a' = _url a
    /\ _data a' = _data a
    /\ _metadata a' = _metadata a
    /\ metadata P a' = metadata P a
    /\ _chainMetadata a' = _chainMetadata a
    /\ _id a' = _id a
    /\ _experimental a' = _experimental a
    /\ match update with
       | Some strategy => _supportStrategy a' = strategy
       | None => a' = a
       end.
Proof.
  assert (Hreturns : exists a', withUpdate P a update = Returned a').
  { destruct (withUpdate P a update) as [a'|e] eqn:Hw; [now exists a'|].
    exfalso.
    assert (Hthrows : exists e,
               new_Action P (_url a) (_data a) (_metadata a)
                 (_supportStrategy a) (Some (_chainMetadata a)) (_id a)
                 (_experimental a) = Threw e).
    { apply new_Action_throws.
      apply (proj1 (new_Action_throws (_url a) (_data a) (_metadata a)
                      (nullish update (_supportStrategy a))
                      (Some (_chainMetadata a)) (_id a) (_experimental a))).
      exists e. exact Hw. }
    destruct Hthrows as [e' He']. unfold constructed in Hconstructed.
    congruence. }
  destruct Hreturns as [a' Ha']. exists a'. split; [exact Ha'|].
  pose proof (new_Action_fields _ _ _ _ _ _ _ Ha') as Hf.
  unfold metadata. rewrite Hf. simpl. repeat split.
  destruct update as [strategy|]; simpl; [reflexivity|].
  unfold withUpdate in Ha'. simpl in Ha'.
  unfold constructed in Hconstructed. congruence.
Qed.

(** ** isSupported *)

(** C5.  When the bound support strategy throws, [isSupported] returns the
    negative verdict with the fixed message instead of throwing. *)
Theorem isSupported_catches (a : Action Strategy) (adapter : Adapter)
    (w w1 : World) (e : Exn)
    (Hthrows : call_strategy E (_supportStrategy a) a adapter w = (Threw e, w1)) :
  exists w',
    isSupported E a adapter w =
      (Returned
         {| sup_isSupported := false;
            sup_message :=
              Some "Failed to check supportability, please contact your Blink client provider." |},
       w').
Proof.
  unfold isSupported. run. rewrite Hthrows. eexists. reflexivity.
Qed.

(** Whatever the strategy does, [isSupported] returns. *)
Lemma isSupported_returns (a : Action Strategy) (adapter : Adapter) (w : World) :
  exists verdict w', isSupported E a adapter w = (Returned verdict, w').
Proof.
  unfold isSupported. run.
  destruct (call_strategy E (_supportStrategy a) a adapter w) as [[verdict|e] w1];
    eexists; eexists; reflexivity.
Qed.

(** ** chain *)

(** C1 (amended).  On an Action whose url parses, with [origin] the origin
    of that url: a remote link whose href is not of that origin, or whose
    POST is answered with a status that is not ok, makes [chain] return
    [null]: nothing is thrown. *)
Theorem chain_remote_failure_is_null (a : Action Strategy)
    (next_href : string) (chainData : option ChainData) (w : World)
    (origin : string)
    (Horigin : URL_origin P (url a) = Some origin)
    (Hfailure :
       isUrlSameOrigin P origin next_href = false
       \/ exists response,
            network E (requests w) (chain_request P origin next_href chainData)
            = Returned response
            /\ resp_ok response = false) :
  exists w',
    chain P E a (PostNextActionLink next_href) chainData w = (Returned None, w').
Proof.
  unfold chain. run. rewrite Horigin. simpl.
  destruct (isUrlSameOrigin P origin next_href) eqn:Hsame; simpl.
  - destruct Hfailure as [Hdiff | [response [Hnet Hok]]]; [discriminate|].
    rewrite Hnet, Hok. simpl. eexists. reflexivity.
  - eexists. reflexivity.
Qed.

(** A cross-origin link is refused before any request is made. *)
Lemma chain_cross_origin_no_request (a : Action Strategy) next_href chainData w
    origin :
  URL_origin P (url a) = Some origin ->
  isUrlSameOrigin P origin next_href = false ->
  requests (snd (chain P E a (PostNextActionLink next_href) chainData w))
  = requests w.
Proof.
  intros Horigin Hdiff. unfold chain. run. rewrite Horigin. simpl.
  rewrite Hdiff. reflexivity.
Qed.

(** When the url of the Action does not parse, [new URL] throws. *)
Lemma chain_remote_unparsable_url (a : Action Strategy) next_href chainData w :
  URL_origin P (url a) = None ->
  exists w',
    chain P E a (PostNextActionLink next_href) chainData w
    = (Threw (TypeError_InvalidURL (url a)), w').
Proof.
  intros Hnone. unfold chain. run. rewrite Hnone. eexists. reflexivity.
Qed.

(** C4 (amended).  For an inline link whose manifest is completed or has no
    links, or on an Action whose url parses, [chain] makes no request and
    returns a chained inline Action with the url and the support strategy of
    [a] and the embedded manifest as data; its id is the one [nanoid()]
    returns to this call, which differs from the id of [a] when that was
    issued earlier by a generator that never repeats. *)
Theorem chain_inline (a : Action Strategy) (action : NextAction)
    (chainData : option ChainData) (w : World)
    (Hfresh : nanoid_never_repeats E)
    (Hissued : id_issued E (ids_issued w) a)
    (Hparses : takes_fallback action = true \/ URL_origin P (url a) <> None) :
  exists chained w',
    chain P E a (InlineNextActionLink action) chainData w
    = (Returned (Some chained), w')
    /\ requests w' = requests w
    /\ _chainMetadata chained = Chained true
    /\ url chained = url a
    /\ _data chained = action
    /\ _supportStrategy chained = _supportStrategy a
    /\ id chained = Some (nanoid_at E (ids_issued w))
    /\ id chained <> id a.
Proof.
  unfold chain. run.
  destruct (new_Action P (url a) action (metadata P a) (_supportStrategy a)
              (Some (Chained true)) (Some (nanoid_at E (ids_issued w))) None)
    as [chained|e] eqn:Hnew.
  - exists chained. eexists. split; [reflexivity|]. simpl.
    pose proof (new_Action_fields _ _ _ _ _ _ _ Hnew) as Hf.
    unfold url, id. rewrite Hf. simpl. repeat split.
    intros Heq. unfold id_issued in Hissued. rewrite <- Heq in Hissued.
    destruct Hissued as [k [Hlt Hk]]. apply Hfresh in Hk. lia.
  - exfalso.
    assert (Hthrows : takes_fallback action = false
                      /\ URL_origin P (url a) = None).
    { eapply new_Action_throws. exists e. exact Hnew. }
    destruct Hthrows as [Hf Hu]. destruct Hparses as [Hp | Hp];
      [congruence | contradiction].
Qed.

(** ** fetch and refresh *)

Lemma Action__fetch_data apiUrl strategy chainMetadata id w a w' :
  Action__fetch P E apiUrl strategy chainMetadata id w = (Returned a, w') ->
  exists response body,
    network E (requests w) (fetch_request P apiUrl) = Returned response
    /\ resp_ok response = true
    /\ parse_ExtendedActionGetResponse P (resp_body response) = Some body
    /\ _data a = with_type_action (get_manifest body)
    /\ _experimental a = dialectExperimental body
    /\ _metadata a = getActionMetadata response.
Proof.
  unfold Action__fetch. run.
  destruct (network E (requests w) (fetch_request P apiUrl))
    as [response|e]; [|discriminate].
  destruct (resp_ok response) eqn:Hok; simpl; [|discriminate].
  destruct (parse_ExtendedActionGetResponse P (resp_body response))
    as [body|] eqn:Hbody; simpl; [|discriminate].
  intros H. injection H as Hnew _.
  pose proof (new_Action_fields _ _ _ _ _ _ _ Hnew) as Hf.
  exists response, body. rewrite Hf. simpl. repeat split; assumption.
Qed.

(** C9.  An Action returned by [Action.fetch], or by [refresh], has data of
    type [action]. *)
Theorem fetched_type_is_action (apiUrl : string) (strategy : option Strategy)
    (a0 a : Action Strategy) (w w' : World)
    (Hfetched :
       Action_fetch P E apiUrl strategy w = (Returned a, w')
       \/ refresh P E a0 w = (Returned a, w')) :
  type a = TypeAction.
Proof.
  unfold type. destruct Hfetched as [Hfetch | Hrefresh].
  - unfold Action_fetch in Hfetch. unfold bind at 1, nanoid in Hfetch.
    apply Action__fetch_data in Hfetch.
    destruct Hfetch as [response [body [_ [_ [_ [Hdata _]]]]]].
    rewrite Hdata. reflexivity.
  - unfold refresh in Hrefresh. apply Action__fetch_data in Hrefresh.
    destruct Hrefresh as [response [body [_ [_ [_ [Hdata _]]]]]].
    rewrite Hdata. reflexivity.
Qed.

(** [_fetch] returns when the response is ok, its body is a manifest, and
    the constructor has no url to parse or can parse it. *)
Lemma Action__fetch_returns apiUrl strategy chainMetadata id w response body :
  network E (requests w) (fetch_request P apiUrl) = Returned response ->
  resp_ok response = true ->
  parse_ExtendedActionGetResponse P (resp_body response) = Some body ->
  na_links (get_manifest body) = None \/ URL_origin P apiUrl <> None ->
  exists a w',
    Action__fetch P E apiUrl strategy chainMetadata id w = (Returned a, w')
    /\ _data a = with_type_action (get_manifest body).
Proof.
  intros Hnet Hok Hbody Hurl. unfold Action__fetch. run.
  rewrite Hnet, Hok. simpl. rewrite Hbody. simpl.
  match goal with |- context [new_Action ?p ?u ?d ?m ?s ?c ?i ?x] =>
    destruct (new_Action p u d m s c i x) as [a|e] eqn:Hnew end.
  - exists a. eexists. split; [reflexivity|].
    now rewrite (new_Action_fields _ _ _ _ _ _ _ Hnew).
  - exfalso.
    assert (Hthrows : takes_fallback (with_type_action (get_manifest body)) = false
                      /\ URL_origin P apiUrl = None).
    { eapply new_Action_throws. exists e. exact Hnew. }
    destruct Hthrows as [Hf Hu]. destruct Hurl as [Hl | Hp]; [|contradiction].
    unfold takes_fallback in Hf. simpl in Hf. rewrite Hl in Hf. discriminate.
Qed.

(** ** fetchBlinkList and useBlinkList *)

(** C10.  [fetchBlinkList] returns in every world: with the empty list when
    the request is rejected, when the response is not ok and when its body
    does not parse.  The list the hook returns after a refetch is therefore
    the entries of what [fetchBlinkList] returned, or the list it had when
    the refetch was cancelled. *)
Theorem fetchBlinkList_never_rejects (w : World) :
  exists list w',
    fetchBlinkList P E w = (Returned list, w')
    /\ (forall e,
          network E (requests w) (blink_list_request P) = Threw e ->
          list = {| entries := [] |})
    /\ (forall response,
          network E (requests w) (blink_list_request P) = Returned response ->
          resp_ok response = false
          \/ parse_BlinkList P (resp_body response) = None ->
          list = {| entries := [] |})
    /\ (forall ignore st,
          useBlinkList_data (fst (refetch P E ignore st w)) =
          if ignore then useBlinkList_data st else entries list).
Proof.
  unfold refetch, fetchBlinkList. run.
  destruct (network E (requests w) (blink_list_request P)) as [response|e].
  - destruct (resp_ok response) eqn:Hok; simpl.
    + destruct (parse_BlinkList P (resp_body response)) as [list|] eqn:Hparse;
        simpl; eexists; eexists; (split; [reflexivity|]); repeat split;
        try discriminate.
      * intros r Hr [Hbad | Hbad]; injection Hr as <-; congruence.
      * intros [] st; reflexivity.
      * intros [] st; reflexivity.
    + eexists; eexists; (split; [reflexivity|]); repeat split.
      intros [] st; reflexivity.
  - eexists; eexists; (split; [reflexivity|]); repeat split.
    intros [] st; reflexivity.
Qed.

(** ** Every way to obtain an Action goes through the constructor *)

Lemma hydrate_constructed url data metadata strategy w a w' :
  Action_hydrate P E url data metadata strategy w = (Returned a, w') ->
  constructed P a.
Proof.
  unfold Action_hydrate. run.
  match goal with |- context [new_Action ?p ?u ?d ?m ?s ?c ?i ?x] =>
    destruct (new_Action p u d m s c i x) as [b|e] eqn:Hnew end;
    intros H; [|discriminate].
  injection H as -> _. eapply new_Action_constructed. exact Hnew.
Qed.

Lemma Action__fetch_constructed apiUrl strategy chainMetadata id w a w' :
  Action__fetch P E apiUrl strategy chainMetadata id w = (Returned a, w') ->
  constructed P a.
Proof.
  unfold Action__fetch. run.
  destruct (network E (requests w) (fetch_request P apiUrl))
    as [response|e]; [|discriminate].
  destruct (resp_ok response); simpl; [|discriminate].
  destruct (parse_ExtendedActionGetResponse P (resp_body response));
    simpl; [|discriminate].
  intros H. injection H as Hnew _. eapply new_Action_constructed. exact Hnew.
Qed.

Lemma fetch_constructed apiUrl strategy w a w' :
  Action_fetch P E apiUrl strategy w = (Returned a, w') -> constructed P a.
Proof.
  unfold Action_fetch. unfold bind at 1, nanoid.
  apply Action__fetch_constructed.
Qed.

Lemma refresh_constructed (a0 : Action Strategy) w a w' :
  refresh P E a0 w = (Returned a, w') -> constructed P a.
Proof. unfold refresh. apply Action__fetch_constructed. Qed.

Lemma withUpdate_constructed (a0 a : Action Strategy) update :
  withUpdate P a0 update = Returned a -> constructed P a.
Proof. unfold withUpdate. apply new_Action_constructed. Qed.

Lemma chain_constructed (a0 : Action Strategy) next chainData w a w' :
  chain P E a0 next chainData w = (Returned (Some a), w') -> constructed P a.
Proof.
  unfold chain. run. destruct next as [next_href | action].
  - destruct (URL_origin P (url a0)) as [origin|]; simpl; [|discriminate].
    destruct (isUrlSameOrigin P origin next_href); simpl; [|discriminate].
    destruct (network E (requests w) (chain_request P origin next_href chainData))
      as [response|e]; [|discriminate].
    destruct (resp_ok response); simpl; [|discriminate].
    destruct (parse_NextAction P (resp_body response)); simpl; [|discriminate].
    match goal with |- context [new_Action ?p ?u ?d ?m ?s ?c ?i ?x] =>
      destruct (new_Action p u d m s c i x) as [b|e] eqn:Hnew end;
      intros H; [|discriminate].
    injection H as -> _. eapply new_Action_constructed. exact Hnew.
  - match goal with |- context [new_Action ?p ?u ?d ?m ?s ?c ?i ?x] =>
      destruct (new_Action p u d m s c i x) as [b|e] eqn:Hnew end;
      intros H; [|discriminate].
    injection H as -> _. eapply new_Action_constructed. exact Hnew.
Qed.

(** ** Ids: every Action carries an id that was issued *)

Lemma id_issued_mono (a : Action Strategy) n m :
  n <= m -> id_issued E n a -> id_issued E m a.
Proof.
  unfold id_issued. destruct (_id a); [|auto].
  intros Hle [k [Hlt Hk]]. exists k. split; [lia | exact Hk].
Qed.

Lemma hydrate_id_issued url data metadata strategy w a w' :
  Action_hydrate P E url data metadata strategy w = (Returned a, w') ->
  ids_issued w' = S (ids_issued w) /\ id_issued E (ids_issued w') a.
Proof.
  unfold Action_hydrate. run.
  match goal with |- context [new_Action ?p ?u ?d ?m ?s ?c ?i ?x] =>
    destruct (new_Action p u d m s c i x) as [b|e] eqn:Hnew end;
    intros H; [|discriminate].
  injection H as -> <-. simpl. split; [reflexivity|].
  unfold id_issued. rewrite (new_Action_fields _ _ _ _ _ _ _ Hnew). simpl.
  exists (ids_issued w). split; [lia | reflexivity].
Qed.

Lemma Action__fetch_id apiUrl strategy chainMetadata id w a w' :
  Action__fetch P E apiUrl strategy chainMetadata id w = (Returned a, w') ->
  ids_issued w' = ids_issued w /\ _id a = id.
Proof.
  unfold Action__fetch. run.
  destruct (network E (requests w) (fetch_request P apiUrl))
    as [response|e]; [|discriminate].
  destruct (resp_ok response); simpl; [|discriminate].
  destruct (parse_ExtendedActionGetResponse P (resp_body response));
    simpl; [|discriminate].
  intros H. injection H as Hnew <-. simpl. split; [reflexivity|].
  now rewrite (new_Action_fields _ _ _ _ _ _ _ Hnew).
Qed.

Lemma fetch_id_issued apiUrl strategy w a w' :
  Action_fetch P E apiUrl strategy w = (Returned a, w') ->
  id_issued E (ids_issued w') a.
Proof.
  unfold Action_fetch. unfold bind at 1, nanoid. intros H.
  apply Action__fetch_id in H. simpl in H. destruct H as [-> Hid].
  unfold id_issued. rewrite Hid. exists (ids_issued w). split; [lia | reflexivity].
Qed.

Lemma refresh_id_issued (a0 : Action Strategy) w a w' :
  id_issued E (ids_issued w) a0 ->
  refresh P E a0 w = (Returned a, w') ->
  id_issued E (ids_issued w') a.
Proof.
  unfold refresh. intros Hold H. apply Action__fetch_id in H.
  destruct H as [-> Hid]. unfold id_issued in *. now rewrite Hid.
Qed.

Lemma withUpdate_id_issued (a0 a : Action Strategy) update n :
  id_issued E n a0 ->
  withUpdate P a0 update = Returned a ->
  id_issued E n a.
Proof.
  unfold withUpdate. intros Hold H.
  unfold id_issued in *. now rewrite (new_Action_fields _ _ _ _ _ _ _ H).
Qed.

Lemma chain_id_issued (a0 : Action Strategy) next chainData w a w' :
  chain P E a0 next chainData w = (Returned (Some a), w') ->
  ids_issued w' = S (ids_issued w)
  /\ _id a = Some (nanoid_at E (ids_issued w)).
Proof.
  unfold chain. run. destruct next as [next_href | action].
  - destruct (URL_origin P (url a0)) as [origin|]; simpl; [|discriminate].
    destruct (isUrlSameOrigin P origin next_href); simpl; [|discriminate].
    destruct (network E (requests w) (chain_request P origin next_href chainData))
      as [response|e]; [|discriminate].
    destruct (resp_ok response); simpl; [|discriminate].
    destruct (parse_NextAction P (resp_body response)); simpl; [|discriminate].
    match goal with |- context [new_Action ?p ?u ?d ?m ?s ?c ?i ?x] =>
      destruct (new_Action p u d m s c i x) as [b|e] eqn:Hnew end;
      intros H; [|discriminate].
    injection H as -> <-. simpl. split; [reflexivity|].
    now rewrite (new_Action_fields _ _ _ _ _ _ _ Hnew).
  - match goal with |- context [new_Action ?p ?u ?d ?m ?s ?c ?i ?x] =>
      destruct (new_Action p u d m s c i x) as [b|e] eqn:Hnew end;
      intros H; [|discriminate].
    injection H as -> <-. simpl. split; [reflexivity|].
    now rewrite (new_Action_fields _ _ _ _ _ _ _ Hnew).
Qed.

End Properties.

(** * Closed examples on the sample platform *)

Lemma id_of_nat_length (n : nat) : String.length (Sample.id_of_nat n) = n.
Proof. induction n; simpl; congruence. Qed.

Lemma sample_nanoid_never_repeats : nanoid_never_repeats Sample.env.
Proof.
  intros i j H. simpl in H.
  rewrite <- (id_of_nat_length i), <- (id_of_nat_length j). now rewrite H.
Qed.

Lemma hydrated_is_hydrate (url : string) :
  Action_hydrate Sample.platform Sample.env url Sample.completed_manifest
    Sample.no_metadata 0 Sample.world0
  = (Returned (Sample.hydrated url 0 None), Sample.world1).
Proof. reflexivity. Qed.

Lemma hydrated_constructed url strategy experimental :
  constructed Sample.platform (Sample.hydrated url strategy experimental).
Proof. reflexivity. Qed.

(** The scenario of the specification: fetching [https://x/api/action]
    gives one SingleValue component with href [https://x/next]. *)
Example fetch_scenario :
  fst (Action_fetch Sample.platform Sample.env "https://x/api/action" None
         Sample.world0)
  = Returned Sample.scenario
  /\ map (fun c => (comp_kind c, comp_href c)) (actions Sample.scenario)
     = [(SingleValueActionComponent, "https://x/next")].
Proof. split; reflexivity. Qed.

(** C2.  An Action hydrated from a manifest of type [action] whose
    [links.actions] is the empty array has no component at all: the
    placeholder button is not built. *)
Theorem empty_links_yield_no_component :
  exists a w',
    Action_hydrate Sample.platform Sample.env "https://x/api/action"
      Sample.empty_links_manifest Sample.no_metadata 0 Sample.world0
    = (Returned a, w')
    /\ na_links (_data a) = Some {| links_actions := [] |}
    /\ actions a = [].
Proof. eexists. eexists. repeat split. Qed.

(** C1 as written fails: [chain] parses the url of the Action before it
    compares origins, so on an Action hydrated at a url that does not parse
    a link to another origin makes it throw instead of returning [null]. *)
Lemma chain_remote_from_unparsable_url :
  exists a w1,
    Action_hydrate Sample.platform Sample.env "not a url"
      Sample.completed_manifest Sample.no_metadata 0 Sample.world0
    = (Returned a, w1)
    /\ URL_origin Sample.platform (url a) = None
    /\ URL_origin Sample.platform "https://evil.example/next"
       = Some "https://evil.example"
    /\ forall chainData,
         fst (chain Sample.platform Sample.env a
                (PostNextActionLink "https://evil.example/next") chainData w1)
         = Threw (TypeError_InvalidURL "not a url").
Proof.
  eexists. eexists. split; [reflexivity|]. split; [reflexivity|].
  split; reflexivity.
Qed.

(** Witness of C1 (amended): a cross-origin link, and a same-origin link
    answered with 404. *)
Lemma chain_remote_failure_is_null_witness :
  URL_origin Sample.platform (url Sample.landing) = Some "https://x"
  /\ isUrlSameOrigin Sample.platform "https://x" "https://evil.example/next"
     = false
  /\ (exists w',
        chain Sample.platform Sample.env Sample.landing
          (PostNextActionLink "https://evil.example/next") None Sample.world1
        = (Returned None, w'))
  /\ (exists w',
        chain Sample.platform Sample.env Sample.landing
          (PostNextActionLink "/missing") (Some "{}") Sample.world1
        = (Returned None, w')).
Proof.
  split; [reflexivity|]. split; [reflexivity|]. split.
  - apply (@chain_remote_failure_is_null _ _ _ Sample.platform Sample.env
             Sample.landing "https://evil.example/next" None Sample.world1
             "https://x").
    + reflexivity.
    + left. reflexivity.
  - apply (@chain_remote_failure_is_null _ _ _ Sample.platform Sample.env
             Sample.landing "/missing" (Some "{}") Sample.world1 "https://x").
    + reflexivity.
    + right. exists (Sample.respond false 404 "not found").
      split; reflexivity.
Defined.

(** Witness of C3: one checkbox parameter. *)
Lemma componentFactory_kind_witness :
  In "checkbox" MULTI_VALUE_TYPES
  /\ comp_kind
       (componentFactory (fields Sample.landing) "Pick" "https://x/pick"
          "transaction" (Some [Sample.checkbox]))
     = MultiValueActionComponent.
Proof.
  split; [simpl; auto|].
  apply (proj1 (proj2 (proj2
           (componentFactory_kind (fields Sample.landing) "Pick"
              "https://x/pick" "transaction" (Some [Sample.checkbox]))))
           Sample.checkbox "checkbox");
    [reflexivity | reflexivity | simpl; auto].
Defined.

(** C4 as written fails: an Action hydrated at a url that does not parse
    cannot chain to an inline manifest that has links, because the
    constructor then has to parse the url. *)
Lemma chain_inline_unparsable_url :
  exists a w1,
    Action_hydrate Sample.platform Sample.env "not a url"
      Sample.completed_manifest Sample.no_metadata 0 Sample.world0
    = (Returned a, w1)
    /\ forall chainData,
         fst (chain Sample.platform Sample.env a
                (InlineNextActionLink Sample.scenario_manifest) chainData w1)
         = Threw (TypeError_InvalidURL "not a url").
Proof. eexists. eexists. split; reflexivity. Qed.

(** Witness of C4 (amended). *)
Lemma chain_inline_witness :
  nanoid_never_repeats Sample.env
  /\ id_issued Sample.env 1 Sample.landing
  /\ URL_origin Sample.platform (url Sample.landing) <> None
  /\ exists chained w',
       chain Sample.platform Sample.env Sample.landing
         (InlineNextActionLink Sample.scenario_manifest) None Sample.world1
       = (Returned (Some chained), w')
       /\ requests w' = requests Sample.world1
       /\ _chainMetadata chained = Chained true
       /\ url chained = url Sample.landing
       /\ _data chained = Sample.scenario_manifest
       /\ _supportStrategy chained = _supportStrategy Sample.landing
       /\ id chained = Some (nanoid_at Sample.env 1)
       /\ id chained <> id Sample.landing.
Proof.
  split; [exact sample_nanoid_never_repeats|].
  split; [exists 0; split; [lia | reflexivity]|].
  split; [discriminate|].
  apply (@chain_inline _ _ _ Sample.platform Sample.env Sample.landing
           Sample.scenario_manifest None Sample.world1).
  - exact sample_nanoid_never_repeats.
  - exists 0. split; [simpl; lia | reflexivity].
  - right. discriminate.
Defined.

(** Witness of C5: strategy 1 throws. *)
Lemma isSupported_catches_witness :
  call_strategy Sample.env 1 (Sample.hydrated "https://x/api/action" 1 None) tt
    Sample.world1
  = (Threw (Error "strategy failed"), Sample.world1)
  /\ exists w',
       isSupported Sample.env (Sample.hydrated "https://x/api/action" 1 None)
         tt Sample.world1
       = (Returned
            {| sup_isSupported := false;
               sup_message :=
                 Some "Failed to check supportability, please contact your Blink client provider." |},
          w').
Proof.
  split; [reflexivity|].
  apply (@isSupported_catches _ _ Sample.env
           (Sample.hydrated "https://x/api/action" 1 None) tt Sample.world1
           Sample.world1 (Error "strategy failed")).
  reflexivity.
Defined.

(** Witness of C6: replacing strategy 0 by strategy 7. *)
Lemma withUpdate_frame_witness :
  constructed Sample.platform Sample.landing
  /\ exists a',
       withUpdate Sample.platform Sample.landing (Some 7) = Returned a'
       /\ _url a' = _url Sample.landing
       /\ _data a' = _data Sample.landing
       /\ _metadata a' = _metadata Sample.landing
       /\ metadata Sample.platform a' = metadata Sample.platform Sample.landing
       /\ _chainMetadata a' = _chainMetadata Sample.landing
       /\ _id a' = _id Sample.landing
       /\ _experimental a' = _experimental Sample.landing
       /\ _supportStrategy a' = 7.
Proof.
  split; [reflexivity|].
  apply (@withUpdate_frame _ _ Sample.platform Sample.landing (Some 7)).
  reflexivity.
Defined.

(** C7 as written fails: a liveData config that is present and disabled is
    reported, with the default delay, not [null]. *)
Lemma liveData_disabled_not_null :
  exists a w',
    Action_fetch Sample.platform Sample.env "https://x/done" None Sample.world0
    = (Returned a, w')
    /\ experimental_liveData a
       = Some {| ld_enabled := false; ld_delayMs := None |}
    /\ liveData_experimental a
       = Some {| rld_enabled := false; rld_delayMs := 1000 |}
    /\ liveData_experimental a <> None.
Proof.
  eexists. eexists. split; [reflexivity|].
  split; [reflexivity|]. split; [reflexivity | discriminate].
Qed.

(** Witness of C7 (amended): the delays 200, 5000 and 0 of an enabled
    config, and an absent config. *)
Lemma liveData_experimental_spec_witness :
  liveData_experimental
    (Sample.hydrated "https://x/a" 0 (Some (Sample.live true (Some 200%Z))))
  = Some {| rld_enabled := true; rld_delayMs := 1000 |}
  /\ liveData_experimental
       (Sample.hydrated "https://x/a" 0 (Some (Sample.live true (Some 5000%Z))))
     = Some {| rld_enabled := true; rld_delayMs := 5000 |}
  /\ liveData_experimental
       (Sample.hydrated "https://x/a" 0 (Some (Sample.live true (Some 0%Z))))
     = Some {| rld_enabled := true; rld_delayMs := 1000 |}
  /\ liveData_experimental (Sample.hydrated "https://x/a" 0 None) = None.
Proof.
  split; [|split; [|split]].
  - apply (proj2 (liveData_experimental_spec
                    (Sample.hydrated "https://x/a" 0
                       (Some (Sample.live true (Some 200%Z)))))
             {| ld_enabled := true; ld_delayMs := Some 200%Z |}).
    reflexivity.
  - apply (proj2 (liveData_experimental_spec
                    (Sample.hydrated "https://x/a" 0
                       (Some (Sample.live true (Some 5000%Z)))))
             {| ld_enabled := true; ld_delayMs := Some 5000%Z |}).
    reflexivity.
  - apply (proj2 (liveData_experimental_spec
                    (Sample.hydrated "https://x/a" 0
                       (Some (Sample.live true (Some 0%Z)))))
             {| ld_enabled := true; ld_delayMs := Some 0%Z |}).
    reflexivity.
  - apply (proj1 (liveData_experimental_spec
                    (Sample.hydrated "https://x/a" 0 None))).
    reflexivity.
Defined.

(** C8 as written fails in both directions: an href with the scheme [ftp]
    is prefixed with the origin, and a relative href whose first letters are
    [http] is not. *)
Lemma linked_href_tests_http_prefix :
  exists a w',
    Action_hydrate Sample.platform Sample.env "https://x/api/action"
      Sample.two_links_manifest Sample.no_metadata 0 Sample.world0
    = (Returned a, w')
    /\ starts_with_scheme "ftp://files.x/next" = true
    /\ starts_with_scheme "httpdocs/next" = false
    /\ map (@comp_href nat) (actions a)
       = ["https://xftp://files.x/next"; "httpdocs/next"]
    /\ map (@comp_href nat) (actions a)
       <> ["ftp://files.x/next"; "https://xhttpdocs/next"].
Proof.
  eexists. eexists. split; [reflexivity|].
  split; [reflexivity|]. split; [reflexivity|].
  split; [reflexivity | discriminate].
Qed.

(** Witness of C8 (amended): the scenario of the specification. *)
Lemma linked_action_href_witness :
  constructed Sample.platform Sample.scenario
  /\ fst (Action_fetch Sample.platform Sample.env "https://x/api/action" None
            Sample.world0)
     = Returned Sample.scenario
  /\ map la_href [Sample.go_next] = ["/next"]
  /\ exists origin,
       URL_origin Sample.platform "https://x/api/action" = Some origin
       /\ Forall2
            (fun action component =>
               (startsWith (la_href action) "http" = true ->
                comp_href component = la_href action)
               /\ (startsWith (la_href action) "http" = false ->
                   comp_href component = (origin ++ la_href action)%string))
            [Sample.go_next] (actions Sample.scenario).
Proof.
  split; [reflexivity|]. split; [reflexivity|]. split; [reflexivity|].
  apply (@linked_action_href _ _ Sample.platform Sample.scenario
           {| links_actions := [Sample.go_next] |});
    reflexivity.
Defined.

(** Witness of C9: the server answers a manifest of type [completed], the
    fetched Action is of type [action]; the same after a refresh. *)
Lemma fetched_type_is_action_witness :
  parse_ExtendedActionGetResponse Sample.platform "completed"
  = Some {| get_manifest := Sample.completed_manifest;
            dialectExperimental := Some Sample.live_disabled |}
  /\ fst (Action_fetch Sample.platform Sample.env "https://x/done" None
            Sample.world0)
     = Returned Sample.done
  /\ fst (refresh Sample.platform Sample.env Sample.done Sample.world1)
     = Returned Sample.done
  /\ type Sample.done = TypeAction
  /\ type Sample.done = TypeAction.
Proof.
  split; [reflexivity|]. split; [reflexivity|]. split; [reflexivity|]. split.
  - eapply (@fetched_type_is_action _ _ _ Sample.platform Sample.env
              "https://x/done" None Sample.done Sample.done Sample.world0).
    left. reflexivity.
  - eapply (@fetched_type_is_action _ _ _ Sample.platform Sample.env
              "https://x/done" None Sample.done Sample.done Sample.world1).
    right. reflexivity.
Defined.

(** Witness of C10: the registry cannot be reached from the sample
    platform. *)
Lemma fetchBlinkList_never_rejects_witness :
  network Sample.env (requests Sample.world0)
    (blink_list_request Sample.platform)
  = Threw (Rejection "TypeError: Failed to fetch")
  /\ fst (fetchBlinkList Sample.platform Sample.env Sample.world0)
     = Returned {| entries := [] |}
  /\ useBlinkList_data
       (fst (refetch Sample.platform Sample.env false
               (useBlinkList_initial) Sample.world0))
     = [].
Proof.
  split; [reflexivity|].
  destruct (@fetchBlinkList_never_rejects _ _ _ Sample.platform Sample.env
              Sample.world0) as [list [w' [Hrun [Hthrown [_ Hhook]]]]].
  rewrite Hrun, Hhook. simpl.
  rewrite (Hthrown (Rejection "TypeError: Failed to fetch") eq_refl).
  split; reflexivity.
Defined.

(** * Further properties of the two files *)

Section Strings.

(** ** trim and split, as [getActionMetadata] uses them *)

Lemma trimStart_fixed (s : string) :
  match s with
  | EmptyString => True
  | String c _ => is_white_space c = false
  end ->
  trimStart s = s.
Proof. destruct s as [|c rest]; simpl; [reflexivity|]. now intros ->. Qed.

Lemma trimStart_headed (s : string) :
  match trimStart s with
  | EmptyString => True
  | String c _ => is_white_space c = false
  end.
Proof.
  induction s as [|c rest IH]; simpl; [exact I|].
  destruct (is_white_space c) eqn:Hc; [exact IH | exact Hc].
Qed.

Lemma trimEnd_headed (s : string) :
  match s with
  | EmptyString => True
  | String c _ => is_white_space c = false
  end ->
  match trimEnd s with
  | EmptyString => True
  | String c _ => is_white_space c = false
  end.
Proof.
  destruct s as [|c rest]; simpl; [auto|]. intros Hc.
  destruct (trimEnd rest); [rewrite Hc|]; exact Hc.
Qed.

Lemma trimEnd_idempotent (s : string) : trimEnd (trimEnd s) = trimEnd s.
Proof.
  induction s as [|c rest IH]; simpl; [reflexivity|].
  destruct (trimEnd rest) as [|d rest'] eqn:Hrest.
  - destruct (is_white_space c) eqn:Hc; simpl; [reflexivity|].
    now rewrite Hc.
  - change (match trimEnd (String d rest') with
            | EmptyString =>
                if is_white_space c then EmptyString else String c EmptyString
            | String e rest'' => String c (String e rest'')
            end = String c (String d rest')).
    rewrite IH. reflexivity.
Qed.

Lemma trim_idempotent (s : string) : trim (trim s) = trim s.
Proof.
  unfold trim.
  rewrite (trimStart_fixed (trimEnd (trimStart s))).
  - apply trimEnd_idempotent.
  - apply trimEnd_headed, trimStart_headed.
Qed.

Lemma split_length (sep : ascii) (s : string) :
  length (split sep s) = S (count_char sep s).
Proof.
  induction s as [|c rest IH]; simpl; [reflexivity|].
  destruct (Ascii.eqb c sep); simpl; [now rewrite IH|].
  destruct (split sep rest); simpl in *; [discriminate | exact IH].
Qed.

Lemma trimStart_splits (s : string) :
  exists before,
    s = (before ++ trimStart s)%string /\ all_white_space before = true.
Proof.
  induction s as [|c rest [before [Hs Hw]]]; simpl.
  - exists EmptyString. split; reflexivity.
  - destruct (is_white_space c) eqn:Hc.
    + exists (String c before). simpl. rewrite Hc, Hw, <- Hs.
      split; reflexivity.
    + exists EmptyString. split; reflexivity.
Qed.

Lemma trimEnd_splits (s : string) :
  exists after,
    s = (trimEnd s ++ after)%string /\ all_white_space after = true.
Proof.
  induction s as [|c rest [after [Hs Hw]]]; simpl.
  - exists EmptyString. split; reflexivity.
  - destruct (trimEnd rest) as [|d rest'] eqn:Hrest.
    + simpl in Hs. subst after.
      destruct (is_white_space c) eqn:Hc.
      * exists (String c rest). simpl. rewrite Hc, Hw. split; reflexivity.
      * exists rest. split; [reflexivity | exact Hw].
    + exists after. split; [|exact Hw]. simpl. f_equal. exact Hs.
Qed.

Lemma trimEnd_ends (s : string) : ends_with_white_space (trimEnd s) = false.
Proof.
  induction s as [|c rest IH]; simpl; [reflexivity|].
  destruct (trimEnd rest) as [|d rest'] eqn:Hrest.
  - destruct (is_white_space c) eqn:Hc; simpl; [reflexivity | exact Hc].
  - exact IH.
Qed.

(** [trim] removes a stretch of white space at each end and leaves a string
    that neither begins nor ends with white space. *)
Lemma trim_spec (s : string) :
  (exists before after,
     s = (before ++ trim s ++ after)%string
     /\ all_white_space before = true /\ all_white_space after = true)
  /\ begins_with_white_space (trim s) = false
  /\ ends_with_white_space (trim s) = false.
Proof.
  unfold trim. split; [|split].
  - destruct (trimStart_splits s) as [before [Hs Hb]].
    destruct (trimEnd_splits (trimStart s)) as [after [Ht Ha]].
    exists before, after. split; [|split; assumption].
    rewrite <- Ht. exact Hs.
  - pose proof (trimEnd_headed (trimStart s) (trimStart_headed s)) as H.
    destruct (trimEnd (trimStart s)); [reflexivity | exact H].
  - apply trimEnd_ends.
Qed.

(** Joining the pieces of [split] with the separator gives the string
    back. *)
Lemma split_concat (sep : ascii) (s : string) :
  String.concat (String sep EmptyString) (split sep s) = s.
Proof.
  induction s as [|c rest IH]; simpl; [reflexivity|].
  destruct (Ascii.eqb_spec c sep) as [-> | Hneq].
  - destruct (split sep rest) as [|piece pieces] eqn:Hsplit.
    + pose proof (split_length sep rest) as Hl. rewrite Hsplit in Hl.
      discriminate.
    + change (String.concat (String sep EmptyString)
                (EmptyString :: piece :: pieces))
        with (String sep
                (String.concat (String sep EmptyString) (piece :: pieces))).
      now rewrite IH.
  - destruct (split sep rest) as [|piece pieces] eqn:Hsplit.
    + pose proof (split_length sep rest) as Hl. rewrite Hsplit in Hl.
      discriminate.
    + destruct pieces as [|piece' pieces'].
      * simpl in *. now rewrite IH.
      * change (String.concat (String sep EmptyString)
                  (String c piece :: piece' :: pieces'))
          with (String c
                  (String.concat (String sep EmptyString)
                     (piece :: piece' :: pieces'))).
        now rewrite IH.
Qed.

(** The metadata extractor: without the header there are no blockchain
    ids.  With it, the header value is cut at its commas, so that there is
    one id per piece and at least one; each id is its piece without the
    white space at its two ends, and neither begins nor ends with white
    space.  The version, when its header is there, is the header value
    without the white space at its two ends. *)
Theorem getActionMetadata_trimmed (response : Response) :
  match resp_header response "x-blockchain-ids" with
  | None => blockchainIds (getActionMetadata response) = None
  | Some raw =>
      exists pieces ids,
        blockchainIds (getActionMetadata response) = Some ids
        /\ String.concat "," pieces = raw
        /\ length pieces = S (count_char "," raw)
        /\ Forall2
             (fun piece id =>
                (exists before after,
                   piece = (before ++ id ++ after)%string
                   /\ all_white_space before = true
                   /\ all_white_space after = true)
                /\ begins_with_white_space id = false
                /\ ends_with_white_space id = false)
             pieces ids
  end
  /\ match resp_header response "x-action-version" with
     | None => version (getActionMetadata response) = None
     | Some raw =>
         exists v,
           version (getActionMetadata response) = Some v
           /\ (exists before after,
                 raw = (before ++ v ++ after)%string
                 /\ all_white_space before = true
                 /\ all_white_space after = true)
           /\ begins_with_white_space v = false
           /\ ends_with_white_space v = false
     end.
Proof.
  unfold getActionMetadata. simpl. split.
  - destruct (resp_header response "x-blockchain-ids") as [raw|];
      [|reflexivity].
    simpl. exists (split "," raw). eexists. split; [reflexivity|].
    split; [apply split_concat|]. split; [apply split_length|].
    induction (split "," raw) as [|piece pieces IH]; simpl; constructor.
    + apply trim_spec.
    + exact IH.
  - destruct (resp_header response "x-action-version") as [raw|];
      [|reflexivity].
    simpl. eexists. split; [reflexivity | apply trim_spec].
Qed.

(** An empty header value is one empty id, not an empty list; a
    no-break space (code unit 160) is white space. *)
Example getActionMetadata_examples :
  getActionMetadata (Fixture.with_headers "" " 2.4 " "")
  = {| blockchainIds := Some [""]; version := Some "2.4" |}
  /\ getActionMetadata (Fixture.with_headers " solana:a , solana:b" "1" "")
     = {| blockchainIds := Some ["solana:a"; "solana:b"]; version := Some "1" |}
  /\ getActionMetadata
       (Fixture.with_headers
          (String (ascii_of_nat 160) ("solana:a" ++ String (ascii_of_nat 160) ""))
          (String (ascii_of_nat 160) "1") "")
     = {| blockchainIds := Some ["solana:a"]; version := Some "1" |}.
Proof. split; [|split]; reflexivity. Qed.

End Strings.

Section Coverage.

Variables Strategy Adapter ChainData : Type.
Variable P : Platform Strategy ChainData.
Variable E : Env Strategy Adapter.

(** ** Components of a constructed Action *)

Lemma componentFactory_fits (parent : ActionFields Strategy) label href type
    parameters :
  parameters_fit_kind (componentFactory parent label href type parameters).
Proof.
  unfold parameters_fit_kind, componentFactory.
  destruct parameters as [[|p [|q ps]]|]; simpl; try reflexivity.
  - destruct (param_type p) as [t|] eqn:Ht; simpl.
    + destruct (truthy_string t) eqn:Htruthy; simpl.
      * destruct (String.eqb_spec t "checkbox") as [-> | Hneq]; simpl.
        -- exists p. split; [reflexivity | exact Ht].
        -- exists p. split; [reflexivity|]. rewrite Ht. congruence.
      * exists p. split; [reflexivity|]. rewrite Ht.
        intros Heq. injection Heq as ->. discriminate.
    + exists p. split; [reflexivity|]. rewrite Ht. discriminate.
  - eexists. split; [reflexivity|]. simpl. lia.
Qed.

Lemma componentFactory_parent (parent : ActionFields Strategy) label href type
    parameters :
  comp_parent (componentFactory parent label href type parameters) = parent.
Proof.
  unfold componentFactory.
  destruct parameters as [[|p [|q ps]]|]; try reflexivity.
  destruct (param_type p) as [t|]; [|reflexivity].
  destruct (negb (truthy_string t)); [reflexivity|].
  destruct (includes MULTI_VALUE_TYPES t); reflexivity.
Qed.

(** Apart from the back-reference, a component does not depend on the
    Action it is built for. *)
Lemma componentFactory_same_but_parent (parent parent' : ActionFields Strategy)
    label href type parameters :
  let c := componentFactory parent label href type parameters in
  let c' := componentFactory parent' label href type parameters in
  comp_kind c = comp_kind c' /\ comp_label c = comp_label c'
  /\ comp_href c = comp_href c' /\ comp_type c = comp_type c'
  /\ comp_parameters c = comp_parameters c'.
Proof.
  cbv zeta. unfold componentFactory.
  destruct parameters as [[|p [|q ps]]|]; try (repeat split; fail).
  destruct (param_type p) as [t|]; try (repeat split; fail).
  destruct (negb (truthy_string t)); try (repeat split; fail).
  destruct (includes MULTI_VALUE_TYPES t); repeat split.
Qed.

(** The shape of a constructed Action: the fallback button, or one
    component per link. *)
Lemma constructed_cases (a : Action Strategy) :
  constructed P a ->
  (takes_fallback (_data a) = true
   /\ actions a =
      [ {| comp_kind := ButtonActionComponent; comp_parent := fields a;
           comp_label := na_label (_data a); comp_href := _url a;
           comp_type := "transaction"; comp_parameters := None |} ])
  \/ (exists links origin,
        na_type (_data a) = TypeAction
        /\ na_links (_data a) = Some links
        /\ URL_origin P (_url a) = Some origin
        /\ actions a =
           map (fun action =>
                  componentFactory (fields a) (la_label action)
                    (linked_href origin action)
                    (nullish (la_type action) "transaction")
                    (la_parameters action))
               (links_actions links)).
Proof.
  intros Hc. pose proof Hc as Hnew. unfold constructed in Hnew.
  destruct (takes_fallback (_data a)) eqn:Hf.
  - left. split; [reflexivity|].
    unfold new_Action in Hnew. unfold takes_fallback in Hf.
    destruct (na_type (_data a)), (na_links (_data a)); try discriminate;
      injection Hnew as Hnew; rewrite <- Hnew at 1; simpl;
      destruct a as [[] ?]; reflexivity.
  - right. unfold takes_fallback in Hf.
    destruct (na_type (_data a)) eqn:Ht; [|discriminate].
    destruct (na_links (_data a)) as [links|] eqn:Hl; [|discriminate].
    destruct (URL_origin P (_url a)) as [origin|] eqn:Ho.
    + exists links, origin. repeat split.
      destruct (new_Action_links P (_url a) (_data a) (_metadata a)
                  (_supportStrategy a) (Some (_chainMetadata a)) (_id a)
                  (_experimental a) Ht Hl Ho) as [b [Hb [_ Hactions]]].
      assert (b = a) by congruence. subst b. exact Hactions.
    + unfold new_Action in Hnew. rewrite Ht, Hl, Ho in Hnew. discriminate.
Qed.

(** Every component of an Action refers back to that Action. *)
Theorem components_point_to_owner (a : Action Strategy)
    (Hconstructed : constructed P a) :
  Forall (fun c => comp_parent c = fields a) (actions a).
Proof.
  destruct (constructed_cases Hconstructed)
    as [[_ Hactions] | [links [origin [_ [_ [_ Hactions]]]]]];
    rewrite Hactions.
  - constructor; [reflexivity | constructor].
  - apply Forall_forall. intros c Hin. apply in_map_iff in Hin.
    destruct Hin as [action [<- _]]. apply componentFactory_parent.
Qed.

(** In every Action the class of a component tells how many parameters it
    holds: none for a Button, exactly one for a SingleValue or a MultiValue
    (of type [checkbox] for the latter only), two or more for a Form. *)
Theorem components_fit_their_kind (a : Action Strategy)
    (Hconstructed : constructed P a) :
  Forall (@parameters_fit_kind Strategy) (actions a).
Proof.
  destruct (constructed_cases Hconstructed)
    as [[_ Hactions] | [links [origin [_ [_ [_ Hactions]]]]]];
    rewrite Hactions.
  - constructor; [reflexivity | constructor].
  - apply Forall_forall. intros c Hin. apply in_map_iff in Hin.
    destruct Hin as [action [<- _]]. apply componentFactory_fits.
Qed.

(** The components of an Action with links follow the linked actions: as
    many, in the same order, with their labels, and with the type
    [transaction] where the link declares none. *)
Theorem components_follow_links (a : Action Strategy) (links : ActionLinks)
    (Hconstructed : constructed P a)
    (Htype : na_type (_data a) = TypeAction)
    (Hlinks : na_links (_data a) = Some links) :
  length (actions a) = length (links_actions links)
  /\ map (@comp_label Strategy) (actions a)
     = map la_label (links_actions links)
  /\ map (@comp_type Strategy) (actions a)
     = map (fun action => nullish (la_type action) "transaction")
           (links_actions links).
Proof.
  destruct (constructed_cases Hconstructed)
    as [[Hf _] | [links' [origin [_ [Hl [_ Hactions]]]]]].
  - unfold takes_fallback in Hf. rewrite Htype, Hlinks in Hf. discriminate.
  - assert (links' = links) by congruence. subst links'.
    rewrite Hactions. clear Hactions. generalize (fields a). intros parent.
    rewrite length_map. split; [reflexivity|].
    rewrite !map_map. split; apply map_ext; intros action.
    + unfold componentFactory.
      destruct (la_parameters action) as [[|p [|q ps]]|]; try reflexivity.
      destruct (param_type p) as [t|]; [|reflexivity].
      destruct (negb (truthy_string t)); [reflexivity|].
      destruct (includes MULTI_VALUE_TYPES t); reflexivity.
    + unfold componentFactory.
      destruct (la_parameters action) as [[|p [|q ps]]|]; try reflexivity.
      destruct (param_type p) as [t|]; [|reflexivity].
      destruct (negb (truthy_string t)); [reflexivity|].
      destruct (includes MULTI_VALUE_TYPES t); reflexivity.
Qed.

(** ** withUpdate *)

Lemma Forall2_map_both {A B C : Type} (R : B -> C -> Prop) (f : A -> B)
    (g : A -> C) (l : list A) :
  (forall x, R (f x) (g x)) -> Forall2 R (map f l) (map g l).
Proof.
  intros H. induction l as [|x rest IH]; simpl; constructor; auto.
Qed.

(** Updates compose: the last strategy wins, an update without a strategy
    changes nothing, and so does an update with the strategy the Action
    already has. *)
Theorem withUpdate_composes (a a1 : Action Strategy) (first : option Strategy)
    (second : Strategy)
    (Hconstructed : constructed P a)
    (Hfirst : withUpdate P a first = Returned a1) :
  withUpdate P a1 (Some second) = withUpdate P a (Some second)
  /\ withUpdate P a1 None = Returned a1
  /\ withUpdate P a (Some (_supportStrategy a)) = Returned a.
Proof.
  pose proof (new_Action_fields P _ _ _ _ _ _ _ Hfirst) as Hf.
  pose proof (new_Action_constructed P _ _ _ _ _ _ _ Hfirst) as Hc1.
  split; [|split].
  - unfold withUpdate. rewrite Hf. reflexivity.
  - exact Hc1.
  - exact Hconstructed.
Qed.

(** An update rebuilds the components: they are the components of the
    original in everything but the back-reference, which is the updated
    Action. *)
Theorem withUpdate_keeps_components (a a' : Action Strategy)
    (update : option Strategy)
    (Hconstructed : constructed P a)
    (Hupdate : withUpdate P a update = Returned a') :
  Forall2
    (fun c c' =>
       comp_kind c = comp_kind c' /\ comp_label c = comp_label c'
       /\ comp_href c = comp_href c' /\ comp_type c = comp_type c'
       /\ comp_parameters c = comp_parameters c'
       /\ comp_parent c' = fields a')
    (actions a) (actions a').
Proof.
  pose proof (new_Action_fields P _ _ _ _ _ _ _ Hupdate) as Hf.
  pose proof (new_Action_constructed P _ _ _ _ _ _ _ Hupdate) as Hc'.
  assert (Hdata : _data a' = _data a) by now rewrite Hf.
  assert (Hurl : _url a' = _url a) by now rewrite Hf.
  destruct (constructed_cases Hconstructed)
    as [[Hfb Ha] | [links [origin [Ht [Hl [Ho Ha]]]]]];
    destruct (constructed_cases Hc')
      as [[Hfb' Ha'] | [links' [origin' [Ht' [Hl' [Ho' Ha']]]]]];
    rewrite Ha, Ha'.
  - constructor; [|constructor]. simpl. rewrite Hdata, Hurl. repeat split.
  - exfalso. unfold takes_fallback in Hfb. rewrite <- Hdata, Ht', Hl' in Hfb.
    discriminate.
  - exfalso. unfold takes_fallback in Hfb'. rewrite Hdata, Ht, Hl in Hfb'.
    discriminate.
  - assert (links' = links) by congruence.
    assert (origin' = origin) by congruence. subst links' origin'.
    apply Forall2_map_both. intros action.
    destruct (componentFactory_same_but_parent (fields a) (fields a')
                (la_label action) (linked_href origin action)
                (nullish (la_type action) "transaction")
                (la_parameters action)) as [H1 [H2 [H3 [H4 H5]]]].
    repeat split; try assumption. apply componentFactory_parent.
Qed.

(** ** liveData_experimental *)

(** The delay reported is never below 1000 ms nor below the declared one,
    and it is one of the two. *)
Theorem liveData_delay_bounds (a : Action Strategy) (r : RequiredLiveData)
    (Hlive : liveData_experimental a = Some r) :
  (1000 <= rld_delayMs r)%Z
  /\ exists ld,
       experimental_liveData a = Some ld
       /\ rld_enabled r = ld_enabled ld
       /\ match ld_delayMs ld with
          | Some declared =>
              (declared <= rld_delayMs r)%Z
              /\ (rld_delayMs r = declared \/ rld_delayMs r = 1000%Z)
          | None => rld_delayMs r = 1000%Z
          end.
Proof.
  unfold liveData_experimental, EXPERIMENTAL_LIVE_DATA_DEFAULT_DELAY_MS in Hlive.
  destruct (experimental_liveData a) as [ld|]; [|discriminate].
  injection Hlive as <-. simpl.
  destruct (ld_delayMs ld) as [d|] eqn:Hd.
  - destruct (Z.eqb_spec d 0) as [-> | Hnz].
    + split; [lia|]. exists ld. rewrite Hd. repeat split; lia.
    + split; [lia|]. exists ld. rewrite Hd. repeat split; lia.
  - split; [lia|]. exists ld. rewrite Hd. repeat split.
Qed.

(** ** hydrate *)

(** [Action.hydrate] makes no request and logs nothing; it returns an
    unchained Action with the arguments as fields, a fresh id and no
    experimental features, whenever the manifest needs no url or the url
    parses. *)
Theorem hydrate_returns (url : string) (data : NextAction)
    (metadata : ActionMetadata) (strategy : Strategy) (w : World)
    (Hparses : takes_fallback data = true \/ URL_origin P url <> None) :
  exists a,
    Action_hydrate P E url data metadata strategy w
    = (Returned a,
       {| ids_issued := S (ids_issued w); requests := requests w;
          console := console w |})
    /\ fields a =
         {| _url := url; _data := data; _metadata := metadata;
            _supportStrategy := strategy; _chainMetadata := NotChained;
            _id := Some (nanoid_at E (ids_issued w)); _experimental := None |}
    /\ liveData_experimental a = None.
Proof.
  unfold Action_hydrate. run.
  match goal with |- context [new_Action ?p ?u ?d ?m ?s ?c ?i ?x] =>
    destruct (new_Action p u d m s c i x) as [a|e] eqn:Hnew end.
  - exists a. split; [reflexivity|].
    pose proof (new_Action_fields P _ _ _ _ _ _ _ Hnew) as Hf.
    split; [exact Hf|].
    unfold liveData_experimental, experimental_liveData. now rewrite Hf.
  - exfalso.
    assert (Hthrows : takes_fallback data = false /\ URL_origin P url = None).
    { eapply new_Action_throws. exists e. exact Hnew. }
    destruct Hthrows as [Hf Hu]. destruct Hparses; congruence.
Qed.

(** Hydrating a manifest with links at a url that does not parse throws the
    [TypeError] of [new URL], after an id has been drawn. *)
Theorem hydrate_invalid_url (url : string) (data : NextAction)
    (metadata : ActionMetadata) (strategy : Strategy) (w : World)
    (links : ActionLinks)
    (Htype : na_type data = TypeAction)
    (Hlinks : na_links data = Some links)
    (Hurl : URL_origin P url = None) :
  Action_hydrate P E url data metadata strategy w
  = (Threw (TypeError_InvalidURL url),
     {| ids_issued := S (ids_issued w); requests := requests w;
        console := console w |}).
Proof.
  unfold Action_hydrate. run. unfold new_Action.
  rewrite Htype, Hlinks, Hurl. reflexivity.
Qed.

(** ** chain *)


(** Only a status that is not ok is turned into [null]: when [fetch]
    itself rejects, or when an ok response carries a body that is not JSON,
    [chain] rejects, and logs nothing. *)
Theorem chain_remote_rejects (a : Action Strategy) (next_href : string)
    (chainData : option ChainData) (w : World) (origin : string)
    (Horigin : URL_origin P (url a) = Some origin)
    (Hsame : isUrlSameOrigin P origin next_href = true)
    (Hbroken :
       (exists e,
          network E (requests w) (chain_request P origin next_href chainData)
          = Threw e)
       \/ (exists response,
             network E (requests w)
               (chain_request P origin next_href chainData)
             = Returned response
             /\ resp_ok response = true
             /\ parse_NextAction P (resp_body response) = None)) :
  exists e w',
    chain P E a (PostNextActionLink next_href) chainData w = (Threw e, w')
    /\ console w' = console w
    /\ (forall e0,
          network E (requests w) (chain_request P origin next_href chainData)
          = Threw e0 ->
          e = e0).
Proof.
  unfold chain. run. rewrite Horigin. simpl. rewrite Hsame. simpl.
  destruct Hbroken as [[e He] | [response [Hnet [Hok Hbody]]]].
  - rewrite He. eexists. eexists. split; [reflexivity|].
    split; [reflexivity|]. intros e0 H0. congruence.
  - rewrite Hnet, Hok. simpl. rewrite Hbody. simpl.
    eexists. eexists. split; [reflexivity|].
    split; [reflexivity|]. intros e0 H0. discriminate.
Qed.

(** What one call of [chain] does to the world, whatever its outcome: it
    draws exactly one id; it sends no request or the one POST; it writes to
    the console exactly when it returns [null], and then one line. *)
Theorem chain_footprint (a : Action Strategy) (next : NextActionLink)
    (chainData : option ChainData) (w w' : World)
    (outcome : Outcome (option (Action Strategy)))
    (Hrun : chain P E a next chainData w = (outcome, w')) :
  ids_issued w' = S (ids_issued w)
  /\ (requests w' = requests w
      \/ exists origin next_href,
           next = PostNextActionLink next_href
           /\ URL_origin P (url a) = Some origin
           /\ isUrlSameOrigin P origin next_href = true
           /\ requests w'
              = requests w ++ [chain_request P origin next_href chainData])
  /\ (outcome = Returned None ->
      exists message, console w' = console w ++ [(message, None)])
  /\ (outcome <> Returned None -> console w' = console w).
Proof.
  revert Hrun. unfold chain. run. destruct next as [next_href | action].
  - destruct (URL_origin P (url a)) as [origin|] eqn:Horigin; simpl.
    + destruct (isUrlSameOrigin P origin next_href) eqn:Hsame; simpl.
      * assert (Hsent :
          forall sent : list Request,
            sent = requests w ++ [chain_request P origin next_href chainData] ->
            sent = requests w
            \/ exists origin0 next_href0,
                 PostNextActionLink next_href = PostNextActionLink next_href0
                 /\ Some origin = Some origin0
                 /\ isUrlSameOrigin P origin0 next_href0 = true
                 /\ sent
                    = requests w
                        ++ [chain_request P origin0 next_href0 chainData]).
        { intros sent ->. right. exists origin, next_href. auto. }
        destruct (network E (requests w)
                    (chain_request P origin next_href chainData))
          as [response|e].
        -- destruct (resp_ok response); simpl.
           ++ destruct (parse_NextAction P (resp_body response)); simpl.
              ** match goal with |- context [new_Action ?p ?u ?d ?m ?s ?c ?i ?x] =>
                   destruct (new_Action p u d m s c i x) end;
                   intros H; injection H as <- <-; simpl;
                   (split; [reflexivity|]); (split; [now apply Hsent|]);
                   (split; [discriminate | reflexivity]).
              ** intros H; injection H as <- <-; simpl.
                 split; [reflexivity|]. split; [now apply Hsent|].
                 split; [discriminate | reflexivity].
           ++ intros H; injection H as <- <-; simpl.
              split; [reflexivity|]. split; [now apply Hsent|].
              split; [intros _; eexists; reflexivity|].
              intros Hn. now contradiction Hn.
        -- intros H; injection H as <- <-; simpl.
           split; [reflexivity|]. split; [now apply Hsent|].
           split; [discriminate | reflexivity].
      * intros H; injection H as <- <-; simpl.
        split; [reflexivity|]. split; [now left|].
        split; [intros _; eexists; reflexivity|].
        intros Hn. now contradiction Hn.
    + intros H; injection H as <- <-; simpl.
      split; [reflexivity|]. split; [now left|].
      split; [discriminate | reflexivity].
  - match goal with |- context [new_Action ?p ?u ?d ?m ?s ?c ?i ?x] =>
      destruct (new_Action p u d m s c i x) end;
      intros H; injection H as <- <-; simpl;
      (split; [reflexivity|]); (split; [now left|]);
      (split; [discriminate | reflexivity]).
Qed.

(** Chaining never leads back to an unchained Action: what [chain] returns
    is chained, inline exactly for an inline link, keeps the support
    strategy of its parent and carries no experimental features, hence no
    live data. *)
Theorem chain_result_is_chained (a chained : Action Strategy)
    (next : NextActionLink) (chainData : option ChainData) (w w' : World)
    (Hrun : chain P E a next chainData w = (Returned (Some chained), w')) :
  isChained chained = true
  /\ isInline chained
     = match next with
       | InlineNextActionLink _ => true
       | PostNextActionLink _ => false
       end
  /\ _supportStrategy chained = _supportStrategy a
  /\ _experimental chained = None
  /\ liveData_experimental chained = None.
Proof.
  assert (Hfields :
    _chainMetadata chained
    = Chained match next with
              | InlineNextActionLink _ => true
              | PostNextActionLink _ => false
              end
    /\ _supportStrategy chained = _supportStrategy a
    /\ _experimental chained = None).
  { revert Hrun. unfold chain. run. destruct next as [next_href | action].
    - destruct (URL_origin P (url a)) as [origin|]; simpl; [|discriminate].
      destruct (isUrlSameOrigin P origin next_href); simpl; [|discriminate].
      destruct (network E (requests w)
                  (chain_request P origin next_href chainData))
        as [response|e]; [|discriminate].
      destruct (resp_ok response); simpl; [|discriminate].
      destruct (parse_NextAction P (resp_body response)); simpl;
        [|discriminate].
      match goal with |- context [new_Action ?p ?u ?d ?m ?s ?c ?i ?x] =>
        destruct (new_Action p u d m s c i x) as [b|e] eqn:Hnew end;
        intros H; [|discriminate].
      injection H as -> _.
      rewrite (new_Action_fields P _ _ _ _ _ _ _ Hnew). repeat split.
    - match goal with |- context [new_Action ?p ?u ?d ?m ?s ?c ?i ?x] =>
        destruct (new_Action p u d m s c i x) as [b|e] eqn:Hnew end;
        intros H; [|discriminate].
      injection H as -> _.
      rewrite (new_Action_fields P _ _ _ _ _ _ _ Hnew). repeat split. }
  destruct Hfields as [Hchain [Hstrategy Hexp]].
  unfold isChained, isInline, liveData_experimental, experimental_liveData.
  rewrite Hchain, Hexp. repeat split. exact Hstrategy.
Qed.

(** An inline chain hands its effective metadata on: the chained Action
    stores the parent's metadata with the baseline already filled in, and
    reports the same metadata as the parent, at the parent's url. *)
Theorem chain_inline_metadata (a chained : Action Strategy)
    (action : NextAction) (chainData : option ChainData) (w w' : World)
    (Hrun :
       chain P E a (InlineNextActionLink action) chainData w
       = (Returned (Some chained), w')) :
  _metadata chained = metadata P a
  /\ metadata P chained = metadata P a
  /\ url chained = url a.
Proof.
  revert Hrun. unfold chain. run.
  match goal with |- context [new_Action ?p ?u ?d ?m ?s ?c ?i ?x] =>
    destruct (new_Action p u d m s c i x) as [b|e] eqn:Hnew end;
    intros H; [|discriminate].
  injection H as -> _.
  pose proof (new_Action_fields P _ _ _ _ _ _ _ Hnew) as Hf.
  unfold metadata at 2, url at 1. rewrite Hf. simpl. repeat split.
Qed.

(** ** fetch and refresh *)

(** A status that is not ok makes [Action.fetch] reject with its own
    error, after one id and one GET, without a line on the console. *)
Theorem fetch_not_ok_throws (apiUrl : string) (strategy : option Strategy)
    (w : World) (response : Response)
    (Hnetwork :
       network E (requests w) (fetch_request P apiUrl) = Returned response)
    (Hok : resp_ok response = false) :
  Action_fetch P E apiUrl strategy w
  = (Threw (Error ("Failed to fetch action " ++ proxy_url (proxify P apiUrl)
                     ++ ", action url: " ++ apiUrl)),
     {| ids_issued := S (ids_issued w);
        requests := requests w ++ [fetch_request P apiUrl];
        console := console w |}).
Proof.
  unfold Action_fetch, Action__fetch. run. rewrite Hnetwork, Hok. reflexivity.
Qed.

(** An ok response with a manifest: [Action.fetch] returns an unchained
    Action at the api url whose data is the manifest with type [action],
    with the metadata of the headers, the given strategy or the default
    one, the id drawn by this call and the experimental block of the
    payload; it has sent one GET. *)
Theorem fetch_returns (apiUrl : string) (strategy : option Strategy)
    (w : World) (response : Response) (body : ExtendedActionGetResponse)
    (Hnetwork :
       network E (requests w) (fetch_request P apiUrl) = Returned response)
    (Hok : resp_ok response = true)
    (Hbody :
       parse_ExtendedActionGetResponse P (resp_body response) = Some body)
    (Hparses :
       na_links (get_manifest body) = None \/ URL_origin P apiUrl <> None) :
  exists a,
    Action_fetch P E apiUrl strategy w
    = (Returned a,
       {| ids_issued := S (ids_issued w);
          requests := requests w ++ [fetch_request P apiUrl];
          console := console w |})
    /\ fields a =
         {| _url := apiUrl;
            _data := with_type_action (get_manifest body);
            _metadata := getActionMetadata response;
            _supportStrategy :=
              nullish strategy (defaultActionSupportStrategy P);
            _chainMetadata := NotChained;
            _id := Some (nanoid_at E (ids_issued w));
            _experimental := dialectExperimental body |}
    /\ req_method (fetch_request P apiUrl) = "GET"
    /\ req_body (fetch_request P apiUrl) = None.
Proof.
  unfold Action_fetch, Action__fetch. run. rewrite Hnetwork, Hok. simpl.
  rewrite Hbody. simpl.
  match goal with |- context [new_Action ?p ?u ?d ?m ?s ?c ?i ?x] =>
    destruct (new_Action p u d m s c i x) as [a|e] eqn:Hnew end.
  - exists a. split; [reflexivity|].
    split; [exact (new_Action_fields P _ _ _ _ _ _ _ Hnew)|].
    split; reflexivity.
  - exfalso.
    assert (Hthrows :
              takes_fallback (with_type_action (get_manifest body)) = false
              /\ URL_origin P apiUrl = None).
    { eapply new_Action_throws. exists e. exact Hnew. }
    destruct Hthrows as [Hf Hu]. destruct Hparses as [Hl | Hp]; [|contradiction].
    unfold takes_fallback in Hf. simpl in Hf. rewrite Hl in Hf. discriminate.
Qed.

(** An Action fetched from a response without the two metadata headers
    reports the baseline blockchain ids and the baseline version. *)
Theorem fetched_metadata_baseline (apiUrl : string)
    (strategy : option Strategy) (w w' : World) (a : Action Strategy)
    (response : Response)
    (Hfetch : Action_fetch P E apiUrl strategy w = (Returned a, w'))
    (Hnetwork :
       network E (requests w) (fetch_request P apiUrl) = Returned response)
    (Hids : resp_header response "x-blockchain-ids" = None)
    (Hversion : resp_header response "x-action-version" = None) :
  metadata P a
  = {| blockchainIds := Some (BASELINE_ACTION_BLOCKCHAIN_IDS P);
       version := Some (BASELINE_ACTION_VERSION P) |}.
Proof.
  unfold Action_fetch in Hfetch. unfold bind at 1, nanoid in Hfetch.
  apply Action__fetch_data in Hfetch. simpl in Hfetch.
  destruct Hfetch as [r [body [Hr [_ [_ [_ [_ Hmeta]]]]]]].
  assert (r = response) by congruence. subst r.
  unfold metadata. rewrite Hmeta. unfold getActionMetadata.
  rewrite Hids, Hversion. reflexivity.
Qed.

Lemma Action__fetch_world apiUrl strategy chainMetadata id w outcome w' :
  Action__fetch P E apiUrl strategy chainMetadata id w = (outcome, w') ->
  w' = {| ids_issued := ids_issued w;
          requests := requests w ++ [fetch_request P apiUrl];
          console := console w |}.
Proof.
  unfold Action__fetch. run.
  destruct (network E (requests w) (fetch_request P apiUrl)) as [response|e].
  - destruct (resp_ok response); simpl.
    + destruct (parse_ExtendedActionGetResponse P (resp_body response));
        simpl; intros H; now injection H as _ <-.
    + intros H; now injection H as _ <-.
  - intros H; now injection H as _ <-.
Qed.

(** [refresh] re-fetches the url of the Action with a GET and draws no id:
    what it returns keeps the url, the support strategy, the chain metadata
    and the id of the Action it was called on. *)
Theorem refresh_preserves (a0 a : Action Strategy) (w w' : World)
    (Hrefresh : refresh P E a0 w = (Returned a, w')) :
  _url a = _url a0
  /\ _supportStrategy a = _supportStrategy a0
  /\ _chainMetadata a = _chainMetadata a0
  /\ _id a = _id a0
  /\ w' = {| ids_issued := ids_issued w;
             requests := requests w ++ [fetch_request P (url a0)];
             console := console w |}.
Proof.
  unfold refresh in Hrefresh.
  pose proof (Action__fetch_world _ _ _ _ _ Hrefresh) as Hw.
  revert Hrefresh. unfold Action__fetch. run.
  destruct (network E (requests w) (fetch_request P (url a0)))
    as [response|e]; [|discriminate].
  destruct (resp_ok response); simpl; [|discriminate].
  destruct (parse_ExtendedActionGetResponse P (resp_body response));
    simpl; [|discriminate].
  intros H. injection H as Hnew _.
  rewrite (new_Action_fields P _ _ _ _ _ _ _ Hnew). simpl.
  repeat split. exact Hw.
Qed.

(** Refreshing a fetched Action while the server answers as it did gives
    the very same Action. *)
Theorem refresh_unchanged_server (apiUrl : string)
    (strategy : option Strategy) (w w1 w2 : World) (a : Action Strategy)
    (Hfetch : Action_fetch P E apiUrl strategy w = (Returned a, w1))
    (Hsame :
       network E (requests w2) (fetch_request P apiUrl)
       = network E (requests w) (fetch_request P apiUrl)) :
  fst (refresh P E a w2) = Returned a.
Proof.
  revert Hfetch. unfold Action_fetch, refresh, Action__fetch. run.
  destruct (network E (requests w) (fetch_request P apiUrl))
    as [response|e] eqn:Hnet; [|discriminate].
  destruct (resp_ok response) eqn:Hok; simpl; [|discriminate].
  destruct (parse_ExtendedActionGetResponse P (resp_body response))
    as [body|] eqn:Hbody; simpl; [|discriminate].
  intros H. injection H as Hnew _.
  pose proof (new_Action_fields P _ _ _ _ _ _ _ Hnew) as Hf.
  unfold url. rewrite Hf. simpl. rewrite Hsame, Hok. simpl.
  rewrite Hbody. run. rewrite Hnew. reflexivity.
Qed.

(** ** fetchBlinkList and useBlinkList *)

(** An ok response with a list: [fetchBlinkList] returns that list as it
    is, after one GET to the registry, and logs nothing. *)
Theorem fetchBlinkList_success (w : World) (response : Response)
    (list : BlinkList)
    (Hnetwork :
       network E (requests w) (blink_list_request P) = Returned response)
    (Hok : resp_ok response = true)
    (Hbody : parse_BlinkList P (resp_body response) = Some list) :
  fetchBlinkList P E w
  = (Returned list,
     {| ids_issued := ids_issued w;
        requests := requests w ++ [blink_list_request P];
        console := console w |})
  /\ req_url (blink_list_request P)
     = "https://registry.dial.to/v1/private/blinks/list"
  /\ req_method (blink_list_request P) = "GET".
Proof.
  unfold fetchBlinkList. run. rewrite Hnetwork, Hok. simpl.
  rewrite Hbody. repeat split.
Qed.

(** Every failure of [fetchBlinkList] leaves exactly one line on the
    console: the status for a response that is not ok, the exception
    otherwise. *)
Theorem fetchBlinkList_logs_failure (w : World)
    (Hfailure :
       forall response,
         network E (requests w) (blink_list_request P) = Returned response ->
         resp_ok response = false
         \/ parse_BlinkList P (resp_body response) = None) :
  exists line,
    fetchBlinkList P E w
    = (Returned {| entries := [] |},
       {| ids_issued := ids_issued w;
          requests := requests w ++ [blink_list_request P];
          console := console w ++ [line] |})
    /\ match network E (requests w) (blink_list_request P) with
       | Threw e =>
           line = ("[@dialectlabs/blinks] Failed to fetch blink list", Some e)
       | Returned response =>
           if resp_ok response
           then exists e,
                  line
                  = ("[@dialectlabs/blinks] Failed to fetch blink list", Some e)
           else line
                = (("[@dialectlabs/blinks] Failed to fetch blink list, response status: "
                      ++ string_of_Z (resp_status response))%string,
                   None)
       end.
Proof.
  unfold fetchBlinkList. run.
  destruct (network E (requests w) (blink_list_request P)) as [response|e].
  - destruct (resp_ok response) eqn:Hok; simpl.
    + destruct (Hfailure response eq_refl) as [Hbad | Hbad]; [congruence|].
      rewrite Hbad. simpl. eexists. split; [reflexivity|].
      eexists. reflexivity.
    + eexists. split; reflexivity.
  - eexists. split; reflexivity.
Qed.

(** The request to the registry carries the client key header exactly when
    there is a client key and it is not the empty string. *)
Theorem blink_list_request_headers :
  match clientKey P with
  | Some (String c rest) =>
      req_headers (blink_list_request P)
      = [("Accept", "application/json");
         (BLINK_CLIENT_KEY_HEADER P, String c rest)]
  | _ => req_headers (blink_list_request P) = [("Accept", "application/json")]
  end
  /\ req_body (blink_list_request P) = None.
Proof.
  unfold blink_list_request, client_key_headers. simpl.
  destruct (clientKey P) as [[|c rest]|]; split; reflexivity.
Qed.

Lemma fetchBlinkList_returns (w : World) :
  exists list w', fetchBlinkList P E w = (Returned list, w').
Proof.
  unfold fetchBlinkList. run.
  destruct (network E (requests w) (blink_list_request P)) as [response|e].
  - destruct (resp_ok response); simpl.
    + destruct (parse_BlinkList P (resp_body response)); simpl;
        eexists; eexists; reflexivity.
    + eexists; eexists; reflexivity.
  - eexists; eexists; reflexivity.
Qed.

(** A refetch that is not cancelled always ends with [loading] false and
    with data; a cancelled one leaves the data as they were and [loading]
    true. *)
Theorem refetch_settles (st : HookState) (w : World) :
  hook_loading (fst (refetch P E false st w)) = false
  /\ (exists list, hook_data (fst (refetch P E false st w)) = Some list)
  /\ hook_data (fst (refetch P E true st w)) = hook_data st
  /\ hook_loading (fst (refetch P E true st w)) = true.
Proof.
  unfold refetch.
  destruct (fetchBlinkList_returns w) as [list [w' ->]]. simpl.
  repeat split. now exists list.
Qed.

(** ** useAction *)


(** Cancelling does not abort: a cancelled fetch still sends its request,
    but its result is dropped, success or failure, without a line on the
    console; the hook keeps the Action it had. *)
Theorem fetchAction_cancelled (apiUrl : string) (strategy : Strategy)
    (st : UseActionState Strategy) (w : World)
    (Hurl : truthy_string apiUrl = true) :
  fetchAction P E (Some apiUrl) strategy true st w
  = (Returned {| ua_action := ua_action st; ua_isLoading := true;
                 ua_hasFetched := false |},
     {| ids_issued := S (ids_issued w);
        requests := requests w ++ [fetch_request P apiUrl];
        console := console w |}).
Proof.
  unfold fetchAction. rewrite Hurl. simpl.
  destruct (Action_fetch P E apiUrl (Some strategy) w) as [outcome fetched]
    eqn:Hfetch.
  unfold Action_fetch in Hfetch. unfold bind at 1, nanoid in Hfetch.
  apply Action__fetch_world in Hfetch. simpl in Hfetch. subst fetched.
  destruct outcome; reflexivity.
Qed.

(** Nothing is fetched before the registry is loaded, nor without an api
    url, nor with an empty one: state and world stay as they are. *)
Theorem fetch_effect_waits (isRegistryLoaded : bool)
    (actionApiUrl : option string) (strategy : Strategy) (ignore : bool)
    (st : UseActionState Strategy) (w : World)
    (Hwaits :
       isRegistryLoaded = false \/ actionApiUrl = None
       \/ actionApiUrl = Some "") :
  fetch_effect P E isRegistryLoaded actionApiUrl strategy ignore st w
  = (Returned st, w).
Proof.
  unfold fetch_effect, fetchAction.
  destruct Hwaits as [-> | [-> | ->]]; simpl; try reflexivity;
    destruct isRegistryLoaded; reflexivity.
Qed.

(** When the support strategy changes after a fetch, the hook replaces its
    Action by one with the new strategy and the same url, data, id and
    chain metadata, without touching the world or the flags. *)
Theorem supportStrategy_effect_updates (strategy : Strategy)
    (st : UseActionState Strategy) (a : Action Strategy) (w : World)
    (Haction : ua_action st = Some a)
    (Hfetched : ua_hasFetched st = true)
    (Hconstructed : constructed P a) :
  exists updated,
    supportStrategy_effect P strategy st w
    = (Returned {| ua_action := Some updated;
                   ua_isLoading := ua_isLoading st;
                   ua_hasFetched := true |}, w)
    /\ fields updated =
         {| _url := _url a; _data := _data a; _metadata := _metadata a;
            _supportStrategy := strategy;
            _chainMetadata := _chainMetadata a; _id := _id a;
            _experimental := _experimental a |}.
Proof.
  unfold supportStrategy_effect. rewrite Haction, Hfetched. simpl.
  destruct (withUpdate P a (Some strategy)) as [updated|e] eqn:Hupdate.
  - exists updated. split; [reflexivity|].
    exact (new_Action_fields P _ _ _ _ _ _ _ Hupdate).
  - exfalso.
    assert (Hthrows : exists e',
               new_Action P (_url a) (_data a) (_metadata a)
                 (_supportStrategy a) (Some (_chainMetadata a)) (_id a)
                 (_experimental a) = Threw e').
    { apply new_Action_throws.
      apply (proj1 (new_Action_throws P (_url a) (_data a) (_metadata a)
                      strategy (Some (_chainMetadata a)) (_id a)
                      (_experimental a))).
      exists e. exact Hupdate. }
    destruct Hthrows as [e' He']. unfold constructed in Hconstructed.
    congruence.
Qed.

(** Right after a fetch the strategy effect changes nothing: the fetched
    Action already has the strategy it was fetched with. *)
Theorem supportStrategy_effect_after_fetch (apiUrl : string)
    (strategy : Strategy) (st st' : UseActionState Strategy) (w w' : World)
    (Hurl : truthy_string apiUrl = true)
    (Hfetch :
       fetchAction P E (Some apiUrl) strategy false st w = (Returned st', w')) :
  supportStrategy_effect P strategy st' w' = (Returned st', w').
Proof.
  revert Hfetch. unfold fetchAction. rewrite Hurl. simpl.
  destruct (Action_fetch P E apiUrl (Some strategy) w) as [[action|e] fetched]
    eqn:Hrun; simpl; intros H; injection H as <- <-.
  - unfold supportStrategy_effect. simpl.
    pose proof (fetch_constructed P E _ _ _ Hrun) as Hc.
    unfold Action_fetch in Hrun. unfold bind at 1, nanoid in Hrun.
    revert Hrun. unfold Action__fetch. run.
    destruct (network E (requests w) (fetch_request P apiUrl))
      as [response|e]; [|discriminate].
    destruct (resp_ok response); simpl; [|discriminate].
    destruct (parse_ExtendedActionGetResponse P (resp_body response));
      simpl; [|discriminate].
    intros H. injection H as Hnew _.
    pose proof (new_Action_fields P _ _ _ _ _ _ _ Hnew) as Hf.
    assert (Hs : _supportStrategy action = strategy) by now rewrite Hf.
    unfold withUpdate. simpl. rewrite <- Hs.
    unfold constructed in Hc. rewrite Hc. reflexivity.
  - reflexivity.
Qed.

(** ** Ids along a chain, and the strategy after an update *)

(** With a generator that never repeats, every chained Action, remote or
    inline, gets an id that differs from its parent's, and that id counts
    among the issued ones afterwards. *)
Theorem chain_id_is_new (a chained : Action Strategy) (next : NextActionLink)
    (chainData : option ChainData) (w w' : World)
    (Hfresh : nanoid_never_repeats E)
    (Hissued : id_issued E (ids_issued w) a)
    (Hrun : chain P E a next chainData w = (Returned (Some chained), w')) :
  _id chained <> _id a /\ id_issued E (ids_issued w') chained.
Proof.
  destruct (chain_id_issued P E _ _ _ _ Hrun) as [Hw Hid]. split.
  - rewrite Hid. intros Heq. unfold id_issued in Hissued.
    rewrite <- Heq in Hissued. destruct Hissued as [k [Hlt Hk]].
    apply Hfresh in Hk. lia.
  - unfold id_issued. rewrite Hid, Hw. exists (ids_issued w).
    split; [lia | reflexivity].
Qed.

(** After [withUpdate] with a strategy, [isSupported] asks that strategy
    about the updated Action and hands its verdict on as it is. *)
Theorem isSupported_after_withUpdate (a : Action Strategy)
    (strategy : Strategy) (adapter : Adapter) (w w1 : World)
    (verdict : ActionSupportability)
    (Hconstructed : constructed P a)
    (Hverdict :
       forall updated,
         withUpdate P a (Some strategy) = Returned updated ->
         call_strategy E strategy updated adapter w = (Returned verdict, w1)) :
  exists updated,
    withUpdate P a (Some strategy) = Returned updated
    /\ isSupported E updated adapter w = (Returned verdict, w1).
Proof.
  destruct (withUpdate P a (Some strategy)) as [updated|e] eqn:Hupdate.
  - exists updated. split; [reflexivity|].
    pose proof (new_Action_fields P _ _ _ _ _ _ _ Hupdate) as Hf.
    unfold isSupported, try_catch.
    assert (Hs : _supportStrategy updated = strategy) by now rewrite Hf.
    rewrite Hs, (Hverdict updated eq_refl). reflexivity.
  - exfalso.
    assert (Hthrows : exists e',
               new_Action P (_url a) (_data a) (_metadata a)
                 (_supportStrategy a) (Some (_chainMetadata a)) (_id a)
                 (_experimental a) = Threw e').
    { apply new_Action_throws.
      apply (proj1 (new_Action_throws P (_url a) (_data a) (_metadata a)
                      strategy (Some (_chainMetadata a)) (_id a)
                      (_experimental a))).
      exists e. exact Hupdate. }
    destruct Hthrows as [e' He']. unfold constructed in Hconstructed.
    congruence.
Qed.

End Coverage.

(** * Closed examples for the further properties *)

Lemma components_point_to_owner_witness :
  constructed Sample.platform Sample.scenario
  /\ Forall (fun c => comp_parent c = fields Sample.scenario)
       (actions Sample.scenario).
Proof.
  split; [reflexivity|].
  exact (components_point_to_owner (P := Sample.platform)
           (a := Sample.scenario) eq_refl).
Defined.

Lemma components_fit_their_kind_witness :
  constructed Sample.platform Sample.scenario
  /\ Forall (@parameters_fit_kind nat) (actions Sample.scenario).
Proof.
  split; [reflexivity|].
  exact (components_fit_their_kind (P := Sample.platform)
           (a := Sample.scenario) eq_refl).
Defined.

Lemma components_follow_links_witness :
  constructed Sample.platform Sample.scenario
  /\ na_links (_data Sample.scenario)
     = Some {| links_actions := [Sample.go_next] |}
  /\ map (@comp_label nat) (actions Sample.scenario) = ["Go"]
  /\ map (@comp_type nat) (actions Sample.scenario) = ["transaction"].
Proof.
  split; [reflexivity|]. split; [reflexivity|].
  destruct (components_follow_links (P := Sample.platform)
              (a := Sample.scenario)
              (links := {| links_actions := [Sample.go_next] |})
              eq_refl eq_refl eq_refl) as [_ [Hlabels Htypes]].
  split; [exact Hlabels | exact Htypes].
Defined.

Lemma withUpdate_composes_witness :
  constructed Sample.platform Sample.landing
  /\ withUpdate Sample.platform Sample.landing (Some 7)
     = Returned (Sample.hydrated "https://x/api/action" 7 None)
  /\ withUpdate Sample.platform
       (Sample.hydrated "https://x/api/action" 7 None) (Some 9)
     = withUpdate Sample.platform Sample.landing (Some 9).
Proof.
  split; [reflexivity|]. split; [reflexivity|].
  exact (proj1 (withUpdate_composes (P := Sample.platform)
                  (a := Sample.landing)
                  (a1 := Sample.hydrated "https://x/api/action" 7 None)
                  (Some 7) 9 eq_refl eq_refl)).
Defined.

Lemma withUpdate_keeps_components_witness :
  constructed Sample.platform Sample.scenario
  /\ exists a',
       withUpdate Sample.platform Sample.scenario (Some 7) = Returned a'
       /\ Forall2
            (fun c c' =>
               comp_kind c = comp_kind c' /\ comp_label c = comp_label c'
               /\ comp_href c = comp_href c' /\ comp_type c = comp_type c'
               /\ comp_parameters c = comp_parameters c'
               /\ comp_parent c' = fields a')
            (actions Sample.scenario) (actions a').
Proof.
  split; [reflexivity|].
  eexists. split; [reflexivity|].
  exact (withUpdate_keeps_components (P := Sample.platform)
           (a := Sample.scenario) (Some 7) eq_refl eq_refl).
Defined.

Lemma liveData_delay_bounds_witness :
  liveData_experimental
    (Sample.hydrated "https://x/a" 0 (Some (Sample.live true (Some 200%Z))))
  = Some {| rld_enabled := true; rld_delayMs := 1000 |}
  /\ (1000 <= 1000)%Z.
Proof.
  split; [reflexivity|].
  exact (proj1 (liveData_delay_bounds
                  (Sample.hydrated "https://x/a" 0
                     (Some (Sample.live true (Some 200%Z))))
                  (r := {| rld_enabled := true; rld_delayMs := 1000 |})
                  eq_refl)).
Defined.

Lemma hydrate_returns_witness :
  URL_origin Sample.platform "https://x/api/action" <> None
  /\ exists a,
       fst (Action_hydrate Sample.platform Sample.env "https://x/api/action"
              Sample.scenario_manifest Sample.no_metadata 0 Sample.world0)
       = Returned a
       /\ liveData_experimental a = None.
Proof.
  split; [discriminate|].
  destruct (hydrate_returns Sample.platform Sample.env "https://x/api/action"
              Sample.scenario_manifest Sample.no_metadata 0 Sample.world0)
    as [a [Hrun [_ Hlive]]].
  - right. discriminate.
  - exists a. rewrite Hrun. split; [reflexivity | exact Hlive].
Defined.

Lemma hydrate_invalid_url_witness :
  URL_origin Sample.platform "not a url" = None
  /\ fst (Action_hydrate Sample.platform Sample.env "not a url"
            Sample.scenario_manifest Sample.no_metadata 0 Sample.world0)
     = Threw (TypeError_InvalidURL "not a url").
Proof.
  split; [reflexivity|].
  rewrite (hydrate_invalid_url Sample.platform Sample.env "not a url"
             Sample.scenario_manifest Sample.no_metadata 0 Sample.world0
             (links := {| links_actions := [Sample.go_next] |})
             eq_refl eq_refl eq_refl).
  reflexivity.
Defined.


Lemma chain_remote_rejects_witness :
  parse_NextAction Sample.platform "scenario" = None
  /\ exists e,
       fst (chain Sample.platform Sample.env Sample.landing
              (PostNextActionLink "/api/action") None Sample.world1)
       = Threw e.
Proof.
  split; [reflexivity|].
  destruct (chain_remote_rejects Sample.platform Sample.env Sample.landing
              "/api/action" None Sample.world1 (origin := "https://x")
              eq_refl eq_refl)
    as [e [w' [Hrun _]]].
  - right. exists (Sample.respond true 200 "scenario"). repeat split.
  - exists e. rewrite Hrun. reflexivity.
Defined.

Lemma chain_footprint_witness :
  ids_issued
    (snd (chain Sample.platform Sample.env Sample.landing
            (PostNextActionLink "https://evil.example/next") None
            Sample.world1))
  = 2
  /\ requests
       (snd (chain Sample.platform Sample.env Sample.landing
               (PostNextActionLink "/missing") None Sample.world1))
     = [chain_request Sample.platform "https://x" "/missing" None].
Proof.
  split.
  - destruct (chain Sample.platform Sample.env Sample.landing
                (PostNextActionLink "https://evil.example/next") None
                Sample.world1) as [outcome w'] eqn:Hrun.
    destruct (chain_footprint _ _ _ _ _ _ Hrun) as [Hids _].
    simpl. rewrite Hids. reflexivity.
  - destruct (chain Sample.platform Sample.env Sample.landing
                (PostNextActionLink "/missing") None Sample.world1)
      as [outcome w'] eqn:Hrun.
    destruct (chain_footprint _ _ _ _ _ _ Hrun)
      as [_ [[Hnone | [origin [href [Hlink [Horigin [_ Hsent]]]]]] _]];
      injection Hrun as _ <-.
    + discriminate Hnone.
    + reflexivity.
Defined.

Lemma chain_result_is_chained_witness :
  exists chained w',
    chain Sample.platform Sample.env Sample.landing
      (InlineNextActionLink Sample.scenario_manifest) None Sample.world1
    = (Returned (Some chained), w')
    /\ isChained chained = true
    /\ isInline chained = true
    /\ liveData_experimental chained = None.
Proof.
  eexists. eexists. split; [reflexivity|].
  match goal with |- isChained ?c = true /\ _ =>
    destruct (chain_result_is_chained Sample.platform Sample.env
                Sample.landing (chained := c)
                (InlineNextActionLink Sample.scenario_manifest) None
                Sample.world1 eq_refl)
      as [Hchained [Hinline [_ [_ Hlive]]]]
  end.
  split; [exact Hchained|]. split; [exact Hinline | exact Hlive].
Defined.

Lemma chain_inline_metadata_witness :
  exists chained w',
    chain Sample.platform Sample.env Sample.landing
      (InlineNextActionLink Sample.scenario_manifest) None Sample.world1
    = (Returned (Some chained), w')
    /\ _metadata Sample.landing = Sample.no_metadata
    /\ _metadata chained
       = {| blockchainIds := Some ["solana:mainnet"]; version := Some "2.0" |}
    /\ metadata Sample.platform chained
       = metadata Sample.platform Sample.landing.
Proof.
  eexists. eexists. split; [reflexivity|]. split; [reflexivity|].
  match goal with |- _metadata ?c = _ /\ _ =>
    destruct (chain_inline_metadata Sample.platform Sample.env
                Sample.landing (chained := c) Sample.scenario_manifest None
                Sample.world1 eq_refl)
      as [Hstored [Hreported _]]
  end.
  split; [exact Hstored | exact Hreported].
Defined.

Lemma fetch_not_ok_throws_witness :
  network Sample.env [] (fetch_request Sample.platform "https://x/missing")
  = Returned (Sample.respond false 404 "not found")
  /\ fst (Action_fetch Sample.platform Sample.env "https://x/missing" None
            Sample.world0)
     = Threw (Error "Failed to fetch action https://x/missing, action url: https://x/missing").
Proof.
  split; [reflexivity|].
  rewrite (fetch_not_ok_throws Sample.platform Sample.env "https://x/missing"
             None Sample.world0
             (response := Sample.respond false 404 "not found")
             eq_refl eq_refl).
  reflexivity.
Defined.

Lemma fetch_returns_witness :
  exists a,
    fst (Action_fetch Sample.platform Sample.env "https://x/api/action" None
           Sample.world0)
    = Returned a
    /\ _url a = "https://x/api/action"
    /\ _chainMetadata a = NotChained
    /\ _supportStrategy a = 0.
Proof.
  destruct (fetch_returns Sample.platform Sample.env "https://x/api/action"
              None Sample.world0
              (response := Sample.respond true 200 "scenario")
              (body := {| get_manifest := Sample.scenario_manifest;
                          dialectExperimental := None |})
              eq_refl eq_refl eq_refl)
    as [a [Hrun [Hfields _]]].
  - right. discriminate.
  - exists a. rewrite Hrun, Hfields. repeat split.
Defined.

Lemma fetched_metadata_baseline_witness :
  fst (Action_fetch Sample.platform Sample.env "https://x/done" None
         Sample.world0)
  = Returned Sample.done
  /\ metadata Sample.platform Sample.done
     = {| blockchainIds := Some ["solana:mainnet"]; version := Some "2.0" |}.
Proof.
  split; [reflexivity|].
  exact (fetched_metadata_baseline Sample.platform Sample.env
           "https://x/done" None Sample.world0
           (w' := Fixture.world_after 1
                    [fetch_request Sample.platform "https://x/done"])
           (a := Sample.done)
           (response := Sample.respond true 200 "completed")
           eq_refl eq_refl eq_refl eq_refl).
Defined.

Lemma refresh_preserves_witness :
  exists a w',
    refresh Sample.platform Sample.env Fixture.chained_done Sample.world1
    = (Returned a, w')
    /\ _id a = Some (Sample.id_of_nat 1)
    /\ _chainMetadata a = Chained false
    /\ ids_issued w' = 1.
Proof.
  eexists. eexists. split; [reflexivity|].
  match goal with |- _id ?b = _ /\ _ =>
    destruct (refresh_preserves Sample.platform Sample.env
                Fixture.chained_done (a := b) Sample.world1 eq_refl)
      as [_ [_ [Hchain [Hid _]]]]
  end.
  split; [exact Hid|]. split; [exact Hchain | reflexivity].
Defined.

Lemma refresh_unchanged_server_witness :
  fst (Action_fetch Sample.platform Sample.env "https://x/done" None
         Sample.world0)
  = Returned Sample.done
  /\ fst (refresh Sample.platform Sample.env Sample.done Sample.world1)
     = Returned Sample.done.
Proof.
  split; [reflexivity|].
  exact (refresh_unchanged_server Sample.platform Sample.env
           "https://x/done" None Sample.world0
           (w1 := Fixture.world_after 1
                    [fetch_request Sample.platform "https://x/done"])
           Sample.world1 (a := Sample.done) eq_refl eq_refl).
Defined.

Lemma fetchBlinkList_success_witness :
  parse_BlinkList (Fixture.registry_platform None) "list"
  = Some {| entries := [Fixture.one_blink] |}
  /\ fst (fetchBlinkList (Fixture.registry_platform None)
            (Fixture.registry_env (Returned (Sample.respond true 200 "list")))
            Sample.world0)
     = Returned {| entries := [Fixture.one_blink] |}.
Proof.
  split; [reflexivity|].
  rewrite (proj1 (fetchBlinkList_success (Fixture.registry_platform None)
                    (Fixture.registry_env
                       (Returned (Sample.respond true 200 "list")))
                    Sample.world0
                    (response := Sample.respond true 200 "list")
                    (list := {| entries := [Fixture.one_blink] |})
                    eq_refl eq_refl eq_refl)).
  reflexivity.
Defined.

Lemma fetchBlinkList_logs_failure_witness :
  console
    (snd (fetchBlinkList (Fixture.registry_platform None)
            (Fixture.registry_env (Returned (Sample.respond false 503 "")))
            Sample.world0))
  = [("[@dialectlabs/blinks] Failed to fetch blink list, response status: 503",
      None)].
Proof.
  destruct (fetchBlinkList_logs_failure (Fixture.registry_platform None)
              (Fixture.registry_env (Returned (Sample.respond false 503 "")))
              Sample.world0)
    as [line [Hrun Hline]].
  - intros response Hresponse. left. simpl in Hresponse.
    injection Hresponse as <-. reflexivity.
  - rewrite Hrun. simpl in Hline. rewrite Hline. reflexivity.
Defined.


Lemma fetchAction_cancelled_witness :
  truthy_string "https://x/api/action" = true
  /\ fetchAction Sample.platform Sample.env (Some "https://x/api/action") 0
       true (useAction_initial nat) Sample.world0
     = (Returned {| ua_action := None; ua_isLoading := true;
                    ua_hasFetched := false |},
        Fixture.world_after 1
          [fetch_request Sample.platform "https://x/api/action"]).
Proof.
  split; [reflexivity|].
  exact (fetchAction_cancelled Sample.platform Sample.env
           "https://x/api/action" 0 (useAction_initial nat) Sample.world0
           eq_refl).
Defined.

Lemma fetch_effect_waits_witness :
  fetch_effect Sample.platform Sample.env false (Some "https://x/api/action")
    0 false (useAction_initial nat) Sample.world0
  = (Returned (useAction_initial nat), Sample.world0)
  /\ fetch_effect Sample.platform Sample.env true (Some "") 0 false
       (useAction_initial nat) Sample.world0
     = (Returned (useAction_initial nat), Sample.world0).
Proof.
  split.
  - exact (fetch_effect_waits Sample.platform Sample.env
             (isRegistryLoaded := false)
             (actionApiUrl := Some "https://x/api/action") 0 false
             (useAction_initial nat) Sample.world0 (or_introl eq_refl)).
  - exact (fetch_effect_waits Sample.platform Sample.env
             (isRegistryLoaded := true) (actionApiUrl := Some "") 0 false
             (useAction_initial nat) Sample.world0
             (or_intror (or_intror eq_refl))).
Defined.

Lemma supportStrategy_effect_updates_witness :
  constructed Sample.platform Sample.landing
  /\ exists updated,
       supportStrategy_effect Sample.platform 7
         {| ua_action := Some Sample.landing; ua_isLoading := false;
            ua_hasFetched := true |} Sample.world1
       = (Returned {| ua_action := Some updated; ua_isLoading := false;
                      ua_hasFetched := true |}, Sample.world1)
       /\ _supportStrategy updated = 7
       /\ _url updated = "https://x/api/action".
Proof.
  split; [reflexivity|].
  destruct (supportStrategy_effect_updates (P := Sample.platform) 7
              {| ua_action := Some Sample.landing; ua_isLoading := false;
                 ua_hasFetched := true |}
              (a := Sample.landing) Sample.world1 eq_refl eq_refl eq_refl)
    as [updated [Hrun Hfields]].
  exists updated. split; [exact Hrun|]. rewrite Hfields. split; reflexivity.
Defined.

Lemma supportStrategy_effect_after_fetch_witness :
  fetchAction Sample.platform Sample.env (Some "https://x/api/action") 0
    false (useAction_initial nat) Sample.world0
  = (Returned {| ua_action := Some Sample.scenario; ua_isLoading := false;
                 ua_hasFetched := true |},
     Fixture.world_after 1
       [fetch_request Sample.platform "https://x/api/action"])
  /\ supportStrategy_effect Sample.platform 0
       {| ua_action := Some Sample.scenario; ua_isLoading := false;
          ua_hasFetched := true |}
       (Fixture.world_after 1
          [fetch_request Sample.platform "https://x/api/action"])
     = (Returned {| ua_action := Some Sample.scenario; ua_isLoading := false;
                    ua_hasFetched := true |},
        Fixture.world_after 1
          [fetch_request Sample.platform "https://x/api/action"]).
Proof.
  split; [reflexivity|].
  exact (supportStrategy_effect_after_fetch Sample.platform Sample.env
           "https://x/api/action" 0 (useAction_initial nat) Sample.world0
           eq_refl eq_refl).
Defined.

Lemma chain_id_is_new_witness :
  nanoid_never_repeats Sample.env
  /\ id_issued Sample.env 1 Sample.landing
  /\ chain Sample.platform Sample.env Sample.landing
       (PostNextActionLink "/done") None Sample.world1
     = (Returned (Some Fixture.chained_done),
        Fixture.world_after 2
          [chain_request Sample.platform "https://x" "/done" None])
  /\ _id Fixture.chained_done <> _id Sample.landing.
Proof.
  assert (Hissued : id_issued Sample.env (ids_issued Sample.world1)
                      Sample.landing).
  { exists 0. split; [simpl; lia | reflexivity]. }
  split; [exact sample_nanoid_never_repeats|].
  split; [exact Hissued|]. split; [reflexivity|].
  exact (proj1 (chain_id_is_new Sample.platform (E := Sample.env)
                  Sample.landing (chained := Fixture.chained_done)
                  (PostNextActionLink "/done") None Sample.world1
                  (w' := Fixture.world_after 2
                           [chain_request Sample.platform "https://x" "/done"
                              None])
                  sample_nanoid_never_repeats Hissued eq_refl)).
Defined.

Lemma isSupported_after_withUpdate_witness :
  constructed Sample.platform (Sample.hydrated "https://x/api/action" 1 None)
  /\ exists updated,
       withUpdate Sample.platform
         (Sample.hydrated "https://x/api/action" 1 None) (Some 0)
       = Returned updated
       /\ isSupported Sample.env updated tt Sample.world1
          = (Returned {| sup_isSupported := true; sup_message := None |},
             Sample.world1).
Proof.
  split; [reflexivity|].
  apply (isSupported_after_withUpdate (P := Sample.platform) Sample.env
           (a := Sample.hydrated "https://x/api/action" 1 None) 0 tt
           Sample.world1 eq_refl).
  intros updated _. reflexivity.
Defined.
